(** * Survey knowledge-graph builder: extraction engine, validator and loader

    A shallow embedding of [kg_builder.py] (class [SurveyKGBuilder]) and of the
    batching and reset loops of [neo4j_graph_builder.py]
    (class [Neo4jSurveyGraphBuilder]), with the properties of the
    specification stated and proved over it.

    Modelling conventions.
    - Python [str] is [string]; the model covers ASCII text: [isspace] and
      [lower] are Python's on code points below 128 and leave the other
      bytes alone.
    - A pandas cell is a [value]: [None] (what [row.get] returns for a column
      the table does not have), [NaN] (a missing cell), a string, or an
      integer.  A float cell other than NaN is outside the model.
    - A Python [dict] is an insertion-ordered association list ([dict_set]);
      the row-index to respondent-ID mapping, only ever read by key, is a
      [gmap]; Python sets are [gset]s.
    - [datetime.now()] is the [n]-th reading of a clock [now : nat -> datetime];
      the builder state counts the readings taken so far.
    - The ontology is an external module: it is a record of the attributes
      the builder uses, and every development below is parametric in it. *)

From Stdlib Require Import ZArith String Ascii DecimalString DecimalNat DecimalZ.
From stdpp Require Import base option list strings gmap sets.
From Equations Require Import Equations.

Open Scope string_scope.
Open Scope nat_scope.
Open Scope list_scope.
Open Scope stdpp_scope.

(** ** Python strings *)

Module PyStr.

(** [str.isspace] on one ASCII character: TAB..CR, FS..US and the space. *)
Definition isspace (c : ascii) : bool :=
  let n := nat_of_ascii c in
  ((9 <=? n) && (n <=? 13)) || ((28 <=? n) && (n <=? 32)).

Definition isdigit (c : ascii) : bool :=
  let n := nat_of_ascii c in (48 <=? n) && (n <=? 57).

Definition lower_char (c : ascii) : ascii :=
  let n := nat_of_ascii c in
  if (65 <=? n) && (n <=? 90) then ascii_of_nat (n + 32) else c.

Fixpoint map_chars (f : ascii -> ascii) (s : string) : string :=
  match s with
  | EmptyString => EmptyString
  | String c s' => String (f c) (map_chars f s')
  end.

(** [s.lower()] *)
Definition lower (s : string) : string := map_chars lower_char s.

(** [s.replace(a, b)] for one-character [a] and [b] *)
Definition replace_char (a b : ascii) (s : string) : string :=
  map_chars (fun c => if Ascii.eqb c a then b else c) s.

Fixpoint lstrip (s : string) : string :=
  match s with
  | EmptyString => EmptyString
  | String c s' => if isspace c then lstrip s' else s
  end.

Fixpoint rstrip (s : string) : string :=
  match s with
  | EmptyString => EmptyString
  | String c s' =>
      match rstrip s' with
      | EmptyString => if isspace c then EmptyString else String c EmptyString
      | r => String c r
      end
  end.

(** [s.strip()] *)
Definition strip (s : string) : string := rstrip (lstrip s).

Fixpoint all_chars (p : ascii -> bool) (s : string) : bool :=
  match s with
  | EmptyString => true
  | String c s' => p c && all_chars p s'
  end.

(** [str(n)] for a non-negative [int] *)
Definition str_nat (n : nat) : string := NilEmpty.string_of_uint (Nat.to_uint n).

(** [str(z)] for an [int] *)
Definition str_Z (z : Z) : string := NilEmpty.string_of_int (Z.to_int z).

Fixpoint zeros (n : nat) : string :=
  match n with
  | O => EmptyString
  | S n' => String "0" (zeros n')
  end.

(** [f"{n:0{w}d}"]: zero-padded on the left to at least [w] characters *)
Definition zfill (w : nat) (n : nat) : string :=
  let s := str_nat n in zeros (w - String.length s) +:+ s.

(** [sep.join(parts)] *)
Fixpoint join (sep : string) (parts : list string) : string :=
  match parts with
  | [] => EmptyString
  | [p] => p
  | p :: ps => p +:+ sep +:+ join sep ps
  end.

End PyStr.
Import PyStr.

(** ** Cell values and the null-safe accessor *)

Inductive value : Type :=
  | VNone
  | VNaN
  | VStr (s : string)
  | VInt (z : Z).

#[global] Instance value_eq_dec : EqDecision value.
Proof. solve_decision. Defined.

(** [pd.isna(value)] *)
Definition isna (v : value) : bool :=
  match v with
  | VNone | VNaN => true
  | _ => false
  end.

(** [str(value)] *)
Definition py_str (v : value) : string :=
  match v with
  | VNone => "None"
  | VNaN => "nan"
  | VStr s => s
  | VInt z => str_Z z
  end.

Definition null_words : list string := ["nan"; "none"; "null"].

(** [SurveyKGBuilder._safe_convert_value] *)
Definition _safe_convert_value (v : value) : option string :=
  if isna v then None
  else
    let str_value := strip (py_str v) in
    if String.eqb str_value "" || bool_decide (lower str_value ∈ null_words)
    then None
    else Some str_value.

(** Python's [a or b] on an optional string: [None] and [''] are falsy. *)
Definition py_or (a : option string) (b : string) : string :=
  match a with
  | Some s => if String.eqb s "" then b else s
  | None => b
  end.

(** ** Dictionaries (insertion ordered) *)

Section PyDict.
Context {V : Type}.

(** [d[k] = v]: an existing key keeps its position. *)
Fixpoint dict_set (k : string) (v : V) (d : list (string * V)) : list (string * V) :=
  match d with
  | [] => [(k, v)]
  | (k', v') :: d' =>
      if String.eqb k' k then (k', v) :: d' else (k', v') :: dict_set k v d'
  end.

(** [d.get(k)] *)
Fixpoint dict_get (k : string) (d : list (string * V)) : option V :=
  match d with
  | [] => None
  | (k', v') :: d' => if String.eqb k' k then Some v' else dict_get k d'
  end.

(** [{**d, **other}] *)
Definition dict_update (d other : list (string * V)) : list (string * V) :=
  foldl (fun acc kv => dict_set kv.1 kv.2 acc) d other.
End PyDict.

(** ** The entity and relationship records *)

(** A property value.  [PPercent num den] stands for the float
    [round((num / den) * 100, 2)], which the model keeps symbolic. *)
Inductive pvalue : Type :=
  | PNull
  | PStr (s : string)
  | PInt (z : Z)
  | PPercent (num den : nat).

#[global] Instance pvalue_eq_dec : EqDecision pvalue.
Proof. solve_decision. Defined.

Record SurveyEntity := mkEntity {
  entity_id : string;
  entity_type : string;
  properties : list (string * pvalue);
  text_content : option string
}.

Record SurveyRelationship := mkRelationship {
  source_id : string;
  target_id : string;
  relationship_type : string;
  rel_properties : option (list (string * pvalue))
}.

#[global] Instance SurveyEntity_eq_dec : EqDecision SurveyEntity.
Proof. solve_decision. Defined.

#[global] Instance SurveyRelationship_eq_dec : EqDecision SurveyRelationship.
Proof. solve_decision. Defined.

(** ** The clock *)

Record datetime := mkDatetime {
  year : nat; month : nat; day : nat;
  hour : nat; minute : nat; second : nat; microsecond : nat
}.

(** The ranges [datetime] guarantees for the fields the stamp prints. *)
Definition MAXYEAR : nat := 99 * 100 + 99.

Definition valid_datetime (t : datetime) : Prop :=
  1 <= year t <= MAXYEAR /\ 1 <= month t <= 12 /\ 1 <= day t <= 31 /\
  hour t <= 23 /\ minute t <= 59 /\ second t <= 59.

(** [t.strftime('%Y%m%d%H%M%S')] *)
Definition strftime_stamp (t : datetime) : string :=
  zfill 4 (year t) +:+ zfill 2 (month t) +:+ zfill 2 (day t) +:+
  zfill 2 (hour t) +:+ zfill 2 (minute t) +:+ zfill 2 (second t).

(** [t.isoformat()] *)
Definition isoformat (t : datetime) : string :=
  zfill 4 (year t) +:+ "-" +:+ zfill 2 (month t) +:+ "-" +:+ zfill 2 (day t) +:+
  "T" +:+ zfill 2 (hour t) +:+ ":" +:+ zfill 2 (minute t) +:+ ":" +:+
  zfill 2 (second t) +:+
  (if microsecond t =? 0 then "" else "." +:+ zfill 6 (microsecond t)).

(** ** The ontology contract *)

Record Ontology := mkOntology {
  (** relationship type -> field set, keys and fields in iteration order *)
  RELATIONSHIP_MAPPINGS : list (string * list string);
  get_descriptive_field_name : string -> string;
  get_category_class_name : string -> string;
  get_category_for_field : string -> string;
  get_field_description : string -> string;
  get_all_survey_fields : list string
}.

(** ** The table *)

(** One row of the table, as [iterrows] yields it: the column names and
    the cells under them. *)
Record Series := mkSeries {
  index : list string;
  cells : list value
}.

Record DataFrame := mkDataFrame {
  columns : list string;
  (** [str(df[column].dtype)], as pandas inferred it *)
  dtype : string -> string;
  (** the rows, top to bottom; the row labels are the positions 0, 1, ... *)
  data : list (list value)
}.

(** The cell under [col]: the first column of that name; a row shorter
    than the header has missing cells there. *)
Fixpoint series_lookup (idx : list string) (vals : list value) (col : string)
    : option value :=
  match idx with
  | [] => None
  | c :: idx' =>
      if String.eqb c col then Some (default VNaN (head vals))
      else series_lookup idx' (tail vals) col
  end.

(** [row.get(col)], and [row[col]] for a column of the row *)
Definition row_get (row : Series) (col : string) : value :=
  default VNone (series_lookup (index row) (cells row) col).

(** [df.iterrows()] *)
Definition iterrows (df : DataFrame) : list (nat * Series) :=
  imap (fun i cs => (i, mkSeries (columns df) cs)) (data df).

(** [df[col]] as the list of its cells *)
Definition column_values (df : DataFrame) (col : string) : list value :=
  map (fun cs => row_get (mkSeries (columns df) cs) col) (data df).

(** [s.unique()]: the distinct values, in order of first appearance *)
Definition unique {A} `{EqDecision A} (l : list A) : list A :=
  reverse (remove_dups (reverse l)).

(** [df[col].nunique()]: the distinct non-null values *)
Definition nunique (df : DataFrame) (col : string) : nat :=
  length (unique (filter (fun v => isna v = false) (column_values df col))).

(** [df[col].isnull().sum()] *)
Definition null_count (df : DataFrame) (col : string) : nat :=
  length (filter (fun v => isna v = true) (column_values df col)).

(** [s.upper()] on one character *)
Definition upper_char (c : ascii) : ascii :=
  let n := nat_of_ascii c in
  if (97 <=? n) && (n <=? 122) then ascii_of_nat (n - 32) else c.

Definition upper (s : string) : string := map_chars upper_char s.

(** ** The builder *)

Record SurveyKGBuilder := mkBuilder {
  entities : list SurveyEntity;
  relationships : list SurveyRelationship;
  respondent_counter : nat;
  respondent_id_mapping : gmap nat string;
  (** how many times [datetime.now()] has been read *)
  clock_reads : nat
}.

(** [SurveyKGBuilder.__init__], the ontology loaded.  The constructor
    does not create the mapping; it is empty here, and every extraction
    empties it before use. *)
Definition new_builder : SurveyKGBuilder :=
  mkBuilder [] [] 0 ∅ 0.

Definition add_entity (e : SurveyEntity) (b : SurveyKGBuilder) : SurveyKGBuilder :=
  mkBuilder (entities b ++ [e]) (relationships b) (respondent_counter b)
            (respondent_id_mapping b) (clock_reads b).

Definition add_relationship (r : SurveyRelationship) (b : SurveyKGBuilder)
    : SurveyKGBuilder :=
  mkBuilder (entities b) (relationships b ++ [r]) (respondent_counter b)
            (respondent_id_mapping b) (clock_reads b).

Definition set_counter (n : nat) (b : SurveyKGBuilder) : SurveyKGBuilder :=
  mkBuilder (entities b) (relationships b) n
            (respondent_id_mapping b) (clock_reads b).

Definition set_mapping (m : gmap nat string) (b : SurveyKGBuilder)
    : SurveyKGBuilder :=
  mkBuilder (entities b) (relationships b) (respondent_counter b)
            m (clock_reads b).

Definition tick (b : SurveyKGBuilder) : SurveyKGBuilder :=
  mkBuilder (entities b) (relationships b) (respondent_counter b)
            (respondent_id_mapping b) (S (clock_reads b)).

(** [str(project_name).lower().replace(' ', '_').replace('-', '_')] *)
Definition safe_project_name (project_name : string) : string :=
  replace_char "-" "_" (replace_char " " "_" (lower project_name)).

(** [df['PROJECT_NAME'] == project_name]: a cell equals the string only
    when it is that string. *)
Definition cell_is (project_name : string) (v : value) : bool :=
  match v with
  | VStr s => String.eqb s project_name
  | _ => false
  end.

(** [df.count().sum()] over the given rows: the non-null cells *)
Definition non_null_cells (rows : list (nat * Series)) : nat :=
  sum_list (map (fun ir : nat * Series =>
     length (filter (fun c => isna (row_get ir.2 c) = false) (index ir.2))) rows).

(** [SurveyKGBuilder._calculate_data_quality_score] on the rows of a
    sub-table with [ncols] columns; the [0.0] of an empty sub-table is the
    percentage of 0 in 1. *)
Definition _calculate_data_quality_score (ncols : nat) (rows : list (nat * Series))
    : pvalue :=
  let total_cells := length rows * ncols in
  if 0 <? total_cells then PPercent (non_null_cells rows) total_cells
  else PPercent 0 1.

(** The values of a dictionary of collected responses that are not [None]. *)
Definition non_null (d : list (string * option string)) : list (string * string) :=
  omap (fun kv : string * option string => (fun v => (kv.1, v)) <$> kv.2) d.

Definition opt_pvalue (o : option string) : pvalue :=
  match o with
  | Some s => PStr s
  | None => PNull
  end.

(** [SurveyKGBuilder._create_category_text_content].  The source looks the
    descriptive name up in [FIELD_NAME_MAPPING] and appends the same part
    whether it finds it or not. *)
Definition _create_category_text_content (category_name : string)
    (responses : list (string * string)) (respondent_id : string) : string :=
  join " "
    ((category_name +:+ " responses for respondent " +:+ respondent_id +:+ ":")
     :: map (fun fv : string * string => fv.1 +:+ ": " +:+ fv.2 +:+ ",") responses).

Section Builder.
Variable ontology : Ontology.
Variable now : nat -> datetime.

(** [datetime.now()] *)
Definition read_clock (b : SurveyKGBuilder) : datetime * SurveyKGBuilder :=
  (now (clock_reads b), tick b).

(** [SurveyKGBuilder.generate_unique_respondent_id] *)
Definition generate_unique_respondent_id (b : SurveyKGBuilder) (row_index : nat)
    : string * SurveyKGBuilder :=
  let '(t, b) := read_clock b in
  let unique_id := zfill 6 (respondent_counter b) +:+ strftime_stamp t in
  (unique_id, set_counter (respondent_counter b + 1) b).

(** The body of the loop of [extract_respondent_entities]. *)
Definition respondent_step (b : SurveyKGBuilder) (ir : nat * Series)
    : SurveyKGBuilder :=
  let '(idx, row) := ir in
  let '(t, b) := read_clock b in
  let respondent_id := zfill 6 (respondent_counter b) +:+ strftime_stamp t in
  let b := set_mapping (<[idx := respondent_id]> (respondent_id_mapping b)) b in
  let b := set_counter (respondent_counter b + 1) b in
  let original_uid := py_or (_safe_convert_value (row_get row "UID")) respondent_id in
  let survey_project :=
    py_or (_safe_convert_value (row_get row "PROJECT_NAME")) "unknown" in
  let '(created_at, b) :=
    match _safe_convert_value (row_get row "YEARRAW") with
    | Some y => if String.eqb y "" then
                  let '(t', b') := read_clock b in (str_nat (year t'), b')
                else (y, b)
    | None => let '(t', b') := read_clock b in (str_nat (year t'), b')
    end in
  let respondent_properties :=
    [("unique_id", PStr respondent_id);
     ("original_uid", PStr original_uid);
     ("survey_project", PStr survey_project);
     ("created_at", PStr created_at);
     ("row_index", PInt (Z.of_nat idx))] in
  let text_content :=
    "Respondent " +:+ respondent_id +:+ " from survey " +:+ survey_project in
  add_entity (mkEntity respondent_id "Respondent" respondent_properties
                       (Some text_content)) b.

(** [SurveyKGBuilder.extract_respondent_entities] *)
Definition extract_respondent_entities (b : SurveyKGBuilder) (df : DataFrame)
    : SurveyKGBuilder :=
  foldl respondent_step (set_mapping ∅ b) (iterrows df).

(** The inner-most loop of [extract_response_entities]: the responses of
    one category, keyed by descriptive field name. *)
Definition collect_responses (row : Series) (field_set : list string)
    : list (string * option string) :=
  foldl (fun category_responses field =>
           if bool_decide (field ∈ index row) then
             dict_set (get_descriptive_field_name ontology field)
                      (_safe_convert_value (row_get row field))
                      category_responses
           else category_responses)
        [] field_set.

(** The body of the loop over the categories, for one row. *)
Definition response_step (respondent_id : string) (row : Series)
    (b : SurveyKGBuilder) (category : string * list string) : SurveyKGBuilder :=
  let '(rel_type, field_set) := category in
  let category_responses := collect_responses row field_set in
  let non_null_responses := non_null category_responses in
  match non_null_responses with
  | [] => b
  | _ :: _ =>
      let response_entity_id := respondent_id +:+ "_" +:+ lower rel_type in
      let category_name := get_category_class_name ontology rel_type in
      let response_count := PInt (Z.of_nat (length non_null_responses)) in
      let response_properties :=
        dict_update
          [("respondent_uid", PStr respondent_id);
           ("response_category", PStr rel_type);
           ("response_count", response_count)]
          (map (fun kv : string * option string => (kv.1, opt_pvalue kv.2))
               category_responses) in
      let text :=
        _create_category_text_content category_name non_null_responses
                                      respondent_id in
      let b := add_entity (mkEntity response_entity_id category_name
                                    response_properties (Some text)) b in
      let '(t, b) := read_clock b in
      add_relationship
        (mkRelationship respondent_id response_entity_id rel_type
           (Some [("respondent_uid", PStr respondent_id);
                  ("response_count", response_count);
                  ("created_at", PStr (isoformat t))])) b
  end.

(** The body of the loop over the rows. *)
Definition response_row_step (b : SurveyKGBuilder) (ir : nat * Series)
    : SurveyKGBuilder :=
  let '(idx, row) := ir in
  match respondent_id_mapping b !! idx with
  | None => b
  | Some respondent_id =>
      if String.eqb respondent_id "" then b
      else foldl (response_step respondent_id row) b
                 (RELATIONSHIP_MAPPINGS ontology)
  end.

(** [SurveyKGBuilder.extract_response_entities] *)
Definition extract_response_entities (b : SurveyKGBuilder) (df : DataFrame)
    : SurveyKGBuilder :=
  foldl response_row_step b (iterrows df).

(** The body of the loop of [extract_question_entities]; the second
    component is [processed_questions]. *)
Definition question_step (df : DataFrame) (st : SurveyKGBuilder * gset string)
    (column : string) : SurveyKGBuilder * gset string :=
  let '(b, processed_questions) := st in
  if bool_decide (upper column ∈ get_all_survey_fields ontology) then
    if bool_decide (column ∈ processed_questions) then st
    else
      let descriptive_name := get_descriptive_field_name ontology column in
      let category := get_category_for_field ontology column in
      let description := get_field_description ontology column in
      let question_properties :=
        [("original_field_name", PStr column);
         ("descriptive_field_name", PStr descriptive_name);
         ("category", PStr category);
         ("description", PStr description);
         ("data_type", PStr (dtype df column));
         ("unique_values", PInt (Z.of_nat (nunique df column)));
         ("null_count", PInt (Z.of_nat (null_count df column)))] in
      let text :=
        "Survey question " +:+ descriptive_name +:+ ": " +:+ description +:+
        " in " +:+ category +:+ " category" in
      (add_entity (mkEntity ("question_" +:+ descriptive_name) "Question"
                            question_properties (Some text)) b,
       {[column]} ∪ processed_questions)
  else st.

(** [SurveyKGBuilder.extract_question_entities] *)
Definition extract_question_entities (b : SurveyKGBuilder) (df : DataFrame)
    : SurveyKGBuilder :=
  (foldl (question_step df) (b, ∅) (columns df)).1.

(** [df['PROJECT_NAME'].dropna().unique()], each value through [str] *)
Definition project_names (df : DataFrame) : list string :=
  map py_str
    (unique (filter (fun v => isna v = false)
                    (column_values df "PROJECT_NAME"))).

(** [df[df['PROJECT_NAME'] == project_name]], with the row labels kept *)
Definition project_rows (df : DataFrame) (project_name : string)
    : list (nat * Series) :=
  filter (fun ir : nat * Series =>
            cell_is project_name (row_get ir.2 "PROJECT_NAME") = true)
         (iterrows df).

(** The loop over the rows of one project: a [HAS_RESPONDENT]
    relationship for every row with a mapped respondent. *)
Definition has_respondent_step (project_name safe_name : string)
    (b : SurveyKGBuilder) (ir : nat * Series) : SurveyKGBuilder :=
  match respondent_id_mapping b !! ir.1 with
  | None => b
  | Some respondent_id =>
      if String.eqb respondent_id "" then b
      else add_relationship
             (mkRelationship ("survey_" +:+ safe_name) respondent_id
                "HAS_RESPONDENT" (Some [("survey_project", PStr project_name)])) b
  end.

(** The body of the loop over the project names. *)
Definition survey_step (df : DataFrame) (b : SurveyKGBuilder)
    (project_name : string) : SurveyKGBuilder :=
  let project_df := project_rows df project_name in
  let year_value :=
    match project_df with
    | (_, first_row) :: _ =>
        if bool_decide ("YEARRAW" ∈ columns df) then
          let first_year := row_get first_row "YEARRAW" in
          if isna first_year then "unknown" else py_str first_year
        else "unknown"
    | [] => "unknown"
    end in
  let total_respondents := length project_df in
  let survey_properties :=
    [("project_name", PStr project_name);
     ("total_respondents", PInt (Z.of_nat total_respondents));
     ("survey_year", PStr year_value);
     ("completion_rate", PPercent total_respondents (length (data df)));
     ("data_quality_score",
      _calculate_data_quality_score (length (columns df)) project_df)] in
  let text :=
    "Survey " +:+ project_name +:+ " with " +:+ str_nat total_respondents +:+
    " respondents from " +:+ year_value in
  let safe_name := safe_project_name project_name in
  let b := add_entity (mkEntity ("survey_" +:+ safe_name) "Survey"
                                survey_properties (Some text)) b in
  foldl (has_respondent_step project_name safe_name) b project_df.

(** [SurveyKGBuilder.extract_survey_metadata] *)
Definition extract_survey_metadata (b : SurveyKGBuilder) (df : DataFrame)
    : SurveyKGBuilder :=
  if bool_decide ("PROJECT_NAME" ∈ columns df) then
    foldl (survey_step df) b (project_names df)
  else b.

(** [SurveyKGBuilder.build_knowledge_graph], on the table that
    [load_and_validate_data] returned.  The entities and the relationships
    it returns are those of the final state. *)
Definition build_knowledge_graph (b : SurveyKGBuilder) (df : DataFrame)
    : SurveyKGBuilder :=
  let b := set_counter 1 b in
  let b := set_mapping ∅ b in
  let b := extract_respondent_entities b df in
  let b := extract_response_entities b df in
  let b := extract_question_entities b df in
  extract_survey_metadata b df.
End Builder.

(** ** The relationship integrity validator *)

Record ValidationResult := mkValidation {
  total_relationships : nat;
  valid_relationships : nat;
  orphaned_relationships : list string;
  validation_passed : bool
}.

(** The loop of [validate_entity_relationships]: the orphan descriptions
    and the valid relationships, in order. *)
Definition validate_step (entity_ids : gset string)
    (acc : list string * list SurveyRelationship) (rel : SurveyRelationship)
    : list string * list SurveyRelationship :=
  let '(orphaned, valid) := acc in
  if bool_decide (source_id rel ∉ entity_ids) then
    (orphaned ++ ["Missing source: " +:+ source_id rel +:+ " for relationship " +:+
                  relationship_type rel], valid)
  else if bool_decide (target_id rel ∉ entity_ids) then
    (orphaned ++ ["Missing target: " +:+ target_id rel +:+ " for relationship " +:+
                  relationship_type rel], valid)
  else (orphaned, valid ++ [rel]).

(** [SurveyKGBuilder.validate_entity_relationships]: the report and the
    builder after the call. *)
Definition validate_entity_relationships (b : SurveyKGBuilder)
    : ValidationResult * SurveyKGBuilder :=
  let entity_ids : gset string := list_to_set (map entity_id (entities b)) in
  let '(orphaned, valid) := foldl (validate_step entity_ids) ([], []) (relationships b) in
  (mkValidation (length (relationships b)) (length valid) orphaned
                (length orphaned =? 0),
   b).

(** ** The graph store and its loader *)

Module Neo4j.

(** A node of the store: its label and its property bag. *)
Record Node := mkNode {
  label : string;
  node_properties : list (string * pvalue)
}.

(** An edge between two nodes, given by their positions in the store. *)
Record Edge := mkEdge {
  edge_source : nat;
  edge_target : nat;
  edge_type : string;
  edge_properties : list (string * pvalue)
}.

(** What the loader sends for one entity and for one relationship. *)
Record EntityData := mkEntityData {
  ed_entity_id : string;
  ed_properties : list (string * pvalue);
  ed_text_content : option string
}.

Record RelData := mkRelData {
  rd_source_id : string;
  rd_target_id : string;
  rd_properties : list (string * pvalue)
}.

(** The statements the loader runs. *)
Inductive Query : Type :=
  | DeleteRelationships (limit : nat)
  | DeleteNodes (limit : nat)
  | CreateNodes (entity_type : string) (entity_data : list EntityData)
  | CreateRelationships (rel_type : string) (rel_data : list RelData).

Record Store := mkStore {
  nodes : list Node;
  edges : list Edge;
  (** every statement run against the store, oldest first *)
  queries : list Query
}.

Definition dict_remove {V} (k : string) (d : list (string * V)) : list (string * V) :=
  filter (fun kv => kv.1 ≠ k) d.

(** [CREATE (n:T) SET n.entity_id = .. SET n += properties
    SET n.text_content = ..] *)
Definition node_of (entity_type : string) (d : EntityData) : Node :=
  let props := dict_update [("entity_id", PStr (ed_entity_id d))] (ed_properties d) in
  mkNode entity_type
    match ed_text_content d with
    | Some t => dict_set "text_content" (PStr t) props
    | None => dict_remove "text_content" props
    end.

(** The positions of the nodes matched by [{entity_id: id}]. *)
Definition match_nodes (ns : list Node) (id : string) : list nat :=
  (filter (fun p : nat * Node =>
             dict_get "entity_id" (node_properties p.2) = Some (PStr id))
          (imap (fun i n => (i, n)) ns)).*1.

(** [session.run(query)]: the count the statement returns and the store
    after it.  [DeleteNodes] is given as it acts on a store without
    relationships, the only situation in which the loader runs it. *)
Definition run (q : Query) (s : Store) : nat * Store :=
  let log := queries s ++ [q] in
  match q with
  | DeleteRelationships limit =>
      (length (take limit (edges s)),
       mkStore (nodes s) (drop limit (edges s)) log)
  | DeleteNodes limit =>
      (length (take limit (nodes s)),
       mkStore (drop limit (nodes s)) (edges s) log)
  | CreateNodes entity_type entity_data =>
      (length entity_data,
       mkStore (nodes s ++ map (node_of entity_type) entity_data) (edges s) log)
  | CreateRelationships rel_type rel_data =>
      let created :=
        rel ← rel_data;
        src ← match_nodes (nodes s) (rd_source_id rel);
        tgt ← match_nodes (nodes s) (rd_target_id rel);
        [mkEdge src tgt rel_type (rd_properties rel)] in
      (length created, mkStore (nodes s) (edges s ++ created) log)
  end.

(** The grouping both batch writers start with: a dictionary from the
    key to the items that carry it, in order of first appearance. *)
Definition group_by {A} (key : A -> string) (l : list A) : list (string * list A) :=
  foldl (fun groups x =>
           dict_set (key x) (default [] (dict_get (key x) groups) ++ [x]) groups)
        [] l.

(** The properties that are not [None]. *)
Definition non_null_properties (props : list (string * pvalue))
    : list (string * pvalue) :=
  filter (fun kv => kv.2 ≠ PNull) props.

Definition entity_data_of (e : SurveyEntity) : EntityData :=
  mkEntityData (entity_id e) (non_null_properties (properties e)) (text_content e).

Definition rel_data_of (r : SurveyRelationship) : RelData :=
  mkRelData (source_id r) (target_id r)
            (non_null_properties (default [] (rel_properties r))).

(** The node an entity becomes, and the number of edges a relationship
    becomes over the nodes [ns]: one for every pair of a node matching its
    source and a node matching its target. *)
Definition entity_node (e : SurveyEntity) : Node :=
  node_of (entity_type e) (entity_data_of e).

Definition edges_of (ns : list Node) (r : SurveyRelationship) : nat :=
  length (match_nodes ns (source_id r)) * length (match_nodes ns (target_id r)).

(** The inner function [create_entity_batch] of [create_entities_batch]. *)
Definition create_entity_batch (s : Store) (entity_batch : list SurveyEntity)
    : Store :=
  foldl (fun s (g : string * list SurveyEntity) =>
           (run (CreateNodes g.1 (map entity_data_of g.2)) s).2)
        s (group_by entity_type entity_batch).

(** The inner function [create_relationship_batch] of
    [create_relationships_batch], the store answering every statement. *)
Definition create_relationship_batch (s : Store)
    (rel_batch : list SurveyRelationship) : Store :=
  foldl (fun s (g : string * list SurveyRelationship) =>
           (run (CreateRelationships g.1 (map rel_data_of g.2)) s).2)
        s (group_by relationship_type rel_batch).

(** The quotient rounded up. *)
Definition ceil_div (n d : nat) : nat := (n + d - 1) / d.

(** [range(0, stop, step)]; [None] is the [ValueError] of a zero step. *)
Definition py_range (stop : nat) (step : Z) : option (list nat) :=
  if (step =? 0)%Z then None
  else if (step <? 0)%Z then Some []
  else
    let st := Z.to_nat step in
    Some (map (fun k => k * st) (seq 0 (ceil_div stop st))).

(** [l[i:j]] *)
Definition slice {A} (l : list A) (i j : nat) : list A := take (j - i) (drop i l).

(** The batches of the loop
    [for i in range(0, len(l), batch_size): batch = l[i:i + batch_size]]. *)
Definition batches {A} (l : list A) (batch_size : Z) : option (list (list A)) :=
  map (fun i => slice l i (i + Z.to_nat batch_size)) <$> py_range (length l) batch_size.

(** [Config.BATCH_SIZE] and [Config.RELATIONSHIP_BATCH_SIZE] *)
Definition BATCH_SIZE : Z := 1000.
Definition RELATIONSHIP_BATCH_SIZE : Z := 500.

(** [Neo4jSurveyGraphBuilder.create_entities_batch]; [None] when the call
    raises. *)
Definition create_entities_batch (s : Store) (entities : list SurveyEntity)
    (batch_size : option Z) : option Store :=
  let batch_size := default BATCH_SIZE batch_size in
  foldl create_entity_batch s <$> batches entities batch_size.

(** [Neo4jSurveyGraphBuilder.create_relationships_batch] *)
Definition create_relationships_batch (s : Store)
    (relationships : list SurveyRelationship) (batch_size : option Z)
    : option Store :=
  let batch_size := default RELATIONSHIP_BATCH_SIZE batch_size in
  foldl create_relationship_batch s <$> batches relationships batch_size.

Definition inspect {A} (a : A) : {b | a = b} := exist _ a eq_refl.

(** [batch_size = 10000] in [clear_database] *)
Definition clear_batch_size : nat := 100 * 100.

(** [while True: deleted = run(delete relationships); if deleted == 0: break] *)
Equations? delete_all_relationships (s : Store) : Store
    by wf (length (edges s)) lt :=
  delete_all_relationships s
    with inspect (run (DeleteRelationships clear_batch_size) s) := {
    | exist _ (deleted, s') _ with inspect (deleted =? 0) := {
        | exist _ true _ := s'
        | exist _ false Hd := delete_all_relationships s' } }.
Proof.
  apply Nat.eqb_neq in Hd. rewrite length_take in Hd. rewrite length_drop. lia.
Qed.

(** [while True: deleted = run(delete nodes); if deleted == 0: break] *)
Equations? delete_all_nodes (s : Store) : Store by wf (length (nodes s)) lt :=
  delete_all_nodes s
    with inspect (run (DeleteNodes clear_batch_size) s) := {
    | exist _ (deleted, s') _ with inspect (deleted =? 0) := {
        | exist _ true _ := s'
        | exist _ false Hd := delete_all_nodes s' } }.
Proof.
  apply Nat.eqb_neq in Hd. rewrite length_take in Hd. rewrite length_drop. lia.
Qed.

(** [Neo4jSurveyGraphBuilder.clear_database] *)
Definition clear_database (s : Store) (confirm : bool) : Store :=
  if confirm then delete_all_nodes (delete_all_relationships s) else s.

End Neo4j.

(** ** Inputs used in the examples *)

Module Scenario.

Definition ont : Ontology :=
  mkOntology [("OPINIONS", ["Q1"])]
    (fun f => if String.eqb f "Q1" then "approval" else f)
    (fun r => if String.eqb r "OPINIONS" then "Opinions" else r)
    (fun _ => "opinions") (fun _ => "Do you approve?") ["Q1"].

(** A clock that stands still: every reading falls in the same second. *)
Definition clock (n : nat) : datetime := mkDatetime 2025 3 14 9 26 53 0.

(** The same clock, seventeen seconds on. *)
Definition clock_later (n : nat) : datetime := mkDatetime 2025 3 14 9 27 10 0.

(** The three-row table of the specification's example: the second row
    leaves [Q1] blank. *)
Definition df : DataFrame :=
  mkDataFrame ["UID"; "PROJECT_NAME"; "YEARRAW"; "Q1"] (fun _ => "object")
    [[VStr "a1"; VStr "Poll A"; VInt 2024; VStr "yes"];
     [VStr "a2"; VStr "Poll A"; VInt 2024; VNaN];
     [VStr "a3"; VStr "Poll A"; VInt 2024; VStr "no"]].

(** Its first row, and the result of one run over it. *)
Definition row0 : Series :=
  mkSeries ["UID"; "PROJECT_NAME"; "YEARRAW"; "Q1"]
           [VStr "a1"; VStr "Poll A"; VInt 2024; VStr "yes"].

Definition kg : SurveyKGBuilder := build_knowledge_graph ont clock new_builder df.

Definition empty_store : Neo4j.Store := Neo4j.mkStore [] [] [].

End Scenario.

(** ** The specification's notion of an absent value *)



(** A relationship is resolved when both its endpoints are entity IDs. *)
Definition resolved (es : list SurveyEntity) (rel : SurveyRelationship) : Prop :=
  (exists e, e ∈ es /\ entity_id e = source_id rel) /\
  (exists e, e ∈ es /\ entity_id e = target_id rel).

(** ** The specification's respondent entity *)

(** The respondent entity the specification describes for the row [row]
    with label [idx]: the generated ID, the original identifier or else the
    generated ID, the project label or else "unknown", the year or else
    the year some clock reading gave, and the row index. *)
Definition spec_respondent_entity (now : nat -> datetime) (row : Series)
    (idx : nat) (e : SurveyEntity) : Prop :=
  entity_type e = "Respondent" /\
  exists original_uid survey_project created_at,
    properties e =
      [("unique_id", PStr (entity_id e));
       ("original_uid", PStr original_uid);
       ("survey_project", PStr survey_project);
       ("created_at", PStr created_at);
       ("row_index", PInt (Z.of_nat idx))] /\
    original_uid = default (entity_id e) (_safe_convert_value (row_get row "UID")) /\
    survey_project = default "unknown" (_safe_convert_value (row_get row "PROJECT_NAME")) /\
    match _safe_convert_value (row_get row "YEARRAW") with
    | Some y => created_at = y
    | None => exists t, created_at = str_nat (year (now t))
    end.

(** The state after the respondent loop has run over the rows [rows] of a
    table, from a builder [b0] whose mapping was emptied. *)
Definition respondents_extracted (now : nat -> datetime) (b0 : SurveyKGBuilder) (cols : list string)
    (rows : list (list value)) (b' : SurveyKGBuilder) : Prop :=
  exists es,
    entities b' = entities b0 ++ es /\
    length es = length rows /\
    relationships b' = relationships b0 /\
    respondent_counter b' = respondent_counter b0 + length rows /\
    clock_reads b0 <= clock_reads b' /\
    (forall i, length rows <= i -> respondent_id_mapping b' !! i = None) /\
    (forall i cs, rows !! i = Some cs ->
       exists e t,
         es !! i = Some e /\
         respondent_id_mapping b' !! i = Some (entity_id e) /\
         entity_id e = zfill 6 (respondent_counter b0 + i) +:+ strftime_stamp (now t) /\
         spec_respondent_entity now (mkSeries cols cs) i e).

(** ** The shape of an extraction result *)

(** Whether the category with the fields [field_set] yields an entity for
    the row: the test [if non_null_responses:] of the source. *)
Definition has_responses (ontology : Ontology) (row : Series)
    (field_set : list string) : bool :=
  match non_null (collect_responses ontology row field_set) with
  | [] => false
  | _ :: _ => true
  end.

(** A field of the row whose value the accessor keeps. *)
Definition answered (row : Series) (field : string) : Prop :=
  field ∈ index row /\ _safe_convert_value (row_get row field) <> None.

(** A second ontology, in which two fields of one category share their
    descriptive name, and a row that answers the first and leaves the
    second blank. *)
Module Collide.

Definition ont : Ontology :=
  mkOntology [("OPINIONS", ["Q1"; "Q2"])]
    (fun _ => "approval") (fun _ => "Opinions")
    (fun _ => "opinions") (fun _ => "Do you approve?") ["Q1"; "Q2"].

Definition row : Series := mkSeries ["UID"; "Q1"; "Q2"] [VStr "a1"; VStr "yes"; VNaN].

(** A third ontology, with two category keys that differ in letter case
    only, and a row that answers a field of each. *)
Definition ont_case : Ontology :=
  mkOntology [("OPINIONS", ["Q1"]); ("opinions", ["Q2"])]
    (fun f => f) (fun r => r)
    (fun _ => "opinions") (fun _ => "Do you approve?") ["Q1"; "Q2"].

Definition df_case : DataFrame :=
  mkDataFrame ["Q1"; "Q2"] (fun _ => "object") [[VStr "yes"; VStr "no"]].

End Collide.

(** What the structural properties look at: an entity's ID and type, a
    relationship's endpoints and type. *)
Definition entity_key (e : SurveyEntity) : string * string :=
  (entity_id e, entity_type e).

Definition rel_key (r : SurveyRelationship) : string * string * string :=
  (source_id r, target_id r, relationship_type r).

(** [b'] is [b] with entities of the keys [ekeys] and relationships of the
    keys [rkeys] appended; the counter and the mapping are those of [b]. *)
Definition extends (b b' : SurveyKGBuilder) (ekeys : list (string * string))
    (rkeys : list (string * string * string)) : Prop :=
  respondent_id_mapping b' = respondent_id_mapping b /\
  respondent_counter b' = respondent_counter b /\
  entity_key <$> entities b' = (entity_key <$> entities b) ++ ekeys /\
  rel_key <$> relationships b' = (rel_key <$> relationships b) ++ rkeys.

(** The respondent the mapping gives for a row label, when it gives one:
    [respondent_id = mapping.get(index)] followed by [if respondent_id]. *)
Definition mapped (m : gmap nat string) (idx : nat) : option string :=
  match m !! idx with
  | Some rid => if String.eqb rid "" then None else Some rid
  | None => None
  end.

(** The categories that yield an entity for the row, in order. *)
Definition response_categories (ontology : Ontology) (row : Series) : list string :=
  (filter (fun c : string * list string => has_responses ontology row c.2 = true)
          (RELATIONSHIP_MAPPINGS ontology)).*1.

Definition response_entity_keys (ontology : Ontology) (m : gmap nat string)
    (ir : nat * Series) : list (string * string) :=
  match mapped m ir.1 with
  | Some rid =>
      (fun c => (rid +:+ "_" +:+ lower c, get_category_class_name ontology c))
        <$> response_categories ontology ir.2
  | None => []
  end.

Definition response_rel_keys (ontology : Ontology) (m : gmap nat string)
    (ir : nat * Series) : list (string * string * string) :=
  match mapped m ir.1 with
  | Some rid =>
      (fun c => (rid, rid +:+ "_" +:+ lower c, c))
        <$> response_categories ontology ir.2
  | None => []
  end.

(** The columns that get a question entity, given those processed so far. *)
Fixpoint question_columns (ontology : Ontology) (processed : gset string)
    (cols : list string) : list string :=
  match cols with
  | [] => []
  | c :: cols' =>
      if bool_decide (upper c ∈ get_all_survey_fields ontology) then
        if bool_decide (c ∈ processed) then question_columns ontology processed cols'
        else c :: question_columns ontology ({[c]} ∪ processed) cols'
      else question_columns ontology processed cols'
  end.

Definition question_entity_keys (ontology : Ontology) (cols : list string)
    : list (string * string) :=
  (fun c => ("question_" +:+ get_descriptive_field_name ontology c, "Question"))
    <$> question_columns ontology ∅ cols.

Definition survey_entity_key (project_name : string) : string * string :=
  ("survey_" +:+ safe_project_name project_name, "Survey").

Definition has_respondent_keys (m : gmap nat string) (project_name : string)
    (ir : nat * Series) : list (string * string * string) :=
  match mapped m ir.1 with
  | Some rid => [("survey_" +:+ safe_project_name project_name, rid, "HAS_RESPONDENT")]
  | None => []
  end.

Definition survey_rel_keys (m : gmap nat string) (df : DataFrame)
    (project_name : string) : list (string * string * string) :=
  project_rows df project_name ≫= has_respondent_keys m project_name.

Definition respondent_entity_keys (m : gmap nat string) (n : nat)
    : list (string * string) :=
  (fun i => (default "" (m !! i), "Respondent")) <$> seq 0 n.

(** The keys of the entities and of the relationships one extraction run
    adds, in order, given the mapping [m] the run built. *)
Definition run_entity_keys (ontology : Ontology) (m : gmap nat string)
    (df : DataFrame) : list (string * string) :=
  respondent_entity_keys m (length (data df)) ++
  (iterrows df ≫= response_entity_keys ontology m) ++
  question_entity_keys ontology (columns df) ++
  (survey_entity_key <$> project_names df).

Definition run_rel_keys (ontology : Ontology) (m : gmap nat string)
    (df : DataFrame) : list (string * string * string) :=
  (iterrows df ≫= response_rel_keys ontology m) ++
  (project_names df ≫= survey_rel_keys m df).

(** The mapping of a run over [n] rows that started its counter at [c0]:
    row [i] has the ID made of the counter value [c0 + i] and a clock
    reading, and no other label is mapped. *)
Definition respondent_ids_assigned (now : nat -> datetime) (c0 n : nat)
    (m : gmap nat string) : Prop :=
  (forall i, i < n ->
     exists t, m !! i = Some (zfill 6 (c0 + i) +:+ strftime_stamp (now t))) /\
  (forall i, n <= i -> m !! i = None).

(** The entity types and the relationship types of a run, in order: what
    the table and the ontology alone determine. *)
Definition run_entity_types (ontology : Ontology) (df : DataFrame) : list string :=
  replicate (length (data df)) "Respondent" ++
  (iterrows df ≫= fun ir =>
     get_category_class_name ontology <$> response_categories ontology ir.2) ++
  ((fun _ => "Question") <$> question_columns ontology ∅ (columns df)) ++
  ((fun _ => "Survey") <$> project_names df).

Definition run_rel_types (ontology : Ontology) (df : DataFrame) : list string :=
  (iterrows df ≫= fun ir => response_categories ontology ir.2) ++
  (project_names df ≫= fun p => (fun _ => "HAS_RESPONDENT") <$> project_rows df p).



(** A table with two project labels that differ only in letter case and
    in a hyphen for a space. *)
Module TwoLabels.

Definition df : DataFrame :=
  mkDataFrame ["UID"; "PROJECT_NAME"] (fun _ => "object")
    [[VStr "a1"; VStr "Poll A"];
     [VStr "a2"; VStr "poll-a"]].

End TwoLabels.

(** * Further parts of the code *)

(** ** The stripped-string accessor *)




(** ** The statistics of a builder *)

(** The counting loop of [get_statistics]:
    [counts[k] = counts.get(k, 0) + 1] for the key of every item. *)
Definition count_by {A} (key : A -> string) (l : list A) : list (string * nat) :=
  foldl (fun counts x =>
           dict_set (key x) (default 0 (dict_get (key x) counts) + 1) counts)
        [] l.

(** The truth value of [entity.text_content]: [None] and [''] are falsy. *)
Definition has_text (e : SurveyEntity) : bool :=
  match text_content e with
  | Some s => negb (String.eqb s "")
  | None => false
  end.

(** The dictionary [get_statistics] returns.  Its key
    [total_relationships] is [stats_total_relationships] here, the shorter
    name being the validation report's. *)
Record Statistics := mkStatistics {
  total_entities : nat;
  stats_total_relationships : nat;
  entity_type_counts : list (string * nat);
  relationship_type_counts : list (string * nat);
  entities_with_text_content : nat;
  text_content_percentage : pvalue;
  ontology_summary : list (string * pvalue)
}.

(** [SurveyKGBuilder.get_statistics]; [schema_summary] is what the
    ontology's [get_schema_summary] returns, passed through untouched. *)
Definition get_statistics (schema_summary : list (string * pvalue))
    (b : SurveyKGBuilder) : Statistics :=
  let entity_counts := count_by entity_type (entities b) in
  let relationship_counts := count_by relationship_type (relationships b) in
  let entities_with_text :=
    length (filter (fun e => has_text e = true) (entities b)) in
  mkStatistics (length (entities b)) (length (relationships b))
    entity_counts relationship_counts entities_with_text
    match entities b with
    | [] => PInt 0
    | _ :: _ => PPercent entities_with_text (length (entities b))
    end
    schema_summary.

(** Every entity of the builder has a non-empty text. *)
Definition all_have_text (b : SurveyKGBuilder) : Prop :=
  Forall (fun e => has_text e = true) (entities b).

(** The rows of the table that carry a project label. *)
Definition labelled_rows (df : DataFrame) : list value :=
  filter (fun v => isna v = false) (column_values df "PROJECT_NAME").

(** Every row label of the table has a respondent in the mapping. *)
Definition mapping_covers (m : gmap nat string) (df : DataFrame) : Prop :=
  forall i, i < length (data df) -> exists rid, mapped m i = Some rid.

(** Some node of [ns] carries the entity ID [id]. *)
Definition has_node (ns : list Neo4j.Node) (id : string) : Prop :=
  exists n, n ∈ ns /\
    dict_get "entity_id" (Neo4j.node_properties n) = Some (PStr id).

(** No property of the node is null. *)
Definition no_null_property (n : Neo4j.Node) : Prop :=
  Forall (fun kv : string * pvalue => kv.2 <> PNull) (Neo4j.node_properties n).

(** A table whose project labels were read as integers. *)
Module IntLabels.

Definition df : DataFrame :=
  mkDataFrame ["UID"; "PROJECT_NAME"]
    (fun c => if String.eqb c "PROJECT_NAME" then "int64" else "object")
    [[VStr "a1"; VInt 2024];
     [VStr "a2"; VInt 2024]].

End IntLabels.

(** ** The instance manager's ports and names *)

Module Docker.

(** [c.isalnum()] on one ASCII character *)
Definition isalnum (c : ascii) : bool :=
  let n := nat_of_ascii c in
  ((48 <=? n) && (n <=? 57)) || ((65 <=? n) && (n <=? 90)) ||
  ((97 <=? n) && (n <=? 122)).

(** [''.join(c for c in s if p(c))] *)
Fixpoint filter_chars (p : ascii -> bool) (s : string) : string :=
  match s with
  | EmptyString => EmptyString
  | String c s' => if p c then String c (filter_chars p s') else filter_chars p s'
  end.

(** The sanitised survey name of [create_instance]. *)
Definition safe_survey_name (survey_name : string) : string :=
  filter_chars (fun c => isalnum c || Ascii.eqb c "-")
    (replace_char "_" "-" (replace_char " " "-" (lower survey_name))).

(** [s[-8:]] *)
Definition last8 (s : string) : string :=
  String.substring (String.length s - 8) 8 s.

(** [f"neo4j-kg-{safe_survey_name}-{instance_id[-8:]}"] *)
Definition container_name (survey_name instance_id : string) : string :=
  "neo4j-kg-" +:+ safe_survey_name survey_name +:+ "-" +:+ last8 instance_id.

(** The password of [create_instance]. *)
Definition password (survey_name : string) : string :=
  "kg_" +:+
  filter_chars (fun c => isalnum c || Ascii.eqb c "_")
    (replace_char "-" "_" (replace_char " " "_" (lower survey_name))).

(** The characters of a sanitised name: lower-case letters, digits and
    the separator [sep]. *)
Definition name_char (sep : ascii) (c : ascii) : bool :=
  let n := nat_of_ascii c in
  ((97 <=? n) && (n <=? 122)) || ((48 <=? n) && (n <=? 57)) || Ascii.eqb c sep.

(** An ASCII character, on which the one-byte model of [lower] and
    [isalnum] is exact. *)
Definition is_ascii (c : ascii) : bool := nat_of_ascii c <? 128.

(** The part of the manager that allocates ports. *)
Record PortState := mkPortState {
  base_http_port : nat;
  base_bolt_port : nat;
  used_ports : gset nat
}.

(** [while port in used: port += 1] *)
Equations? next_free_port (used : gset nat) (port : nat) : nat
    by wf (S (max_list (elements used)) - port) lt :=
  next_free_port used port with Neo4j.inspect (bool_decide (port ∈ used)) := {
    | exist _ true Hin := next_free_port used (port + 1)
    | exist _ false Hout := port }.
Proof.
  apply bool_decide_eq_true_1 in Hin.
  apply elem_of_elements, max_list_elem_of_le in Hin. lia.
Qed.

(** [CrossPlatformDockerManager._find_available_ports]; [container_ports]
    are the host ports read off the existing containers. *)
Definition _find_available_ports (m : PortState) (container_ports : gset nat)
    : (nat * nat) * PortState :=
  let http_port := next_free_port (container_ports ∪ used_ports m) (base_http_port m) in
  let bolt_port :=
    next_free_port (container_ports ∪ used_ports m ∪ {[http_port]})
                   (base_bolt_port m) in
  ((http_port, bolt_port),
   mkPortState (base_http_port m) (base_bolt_port m)
               ({[bolt_port]} ∪ ({[http_port]} ∪ used_ports m))).

(** The port bookkeeping of [remove_instance], once the container is gone:
    [used_ports.discard(http_port); used_ports.discard(bolt_port)]. *)
Definition release_ports (m : PortState) (http_port bolt_port : nat) : PortState :=
  mkPortState (base_http_port m) (base_bolt_port m)
              (used_ports m ∖ {[http_port]} ∖ {[bolt_port]}).

End Docker.

(** * Properties *)

Example safe_convert_examples :
  _safe_convert_value (VStr "  Agree ") = Some "Agree" /\
  _safe_convert_value (VStr " NULL") = None /\
  _safe_convert_value (VInt 2024) = Some "2024" /\
  _safe_convert_value (VInt (-3)) = Some "-3" /\
  _safe_convert_value VNaN = None.
Proof. vm_compute. repeat split; reflexivity. Qed.

(** ** Strings *)







(** ** The null-safe accessor *)


Lemma safe_convert_value_Some v s :
  _safe_convert_value v = Some s -> s = strip (py_str v) /\ s <> "".
Proof.
  unfold _safe_convert_value. destruct (isna v); [done|].
  destruct (String.eqb (strip (py_str v)) "") eqn:He; simpl; [done|].
  case_bool_decide; [done|]. intros [= <-]. by apply String.eqb_neq in He.
Qed.



(** ** The relationship integrity validator *)

Lemma elem_of_entity_ids (es : list SurveyEntity) (id : string) :
  id ∈ (list_to_set (map entity_id es) : gset string) <->
  exists e, e ∈ es /\ entity_id e = id.
Proof.
  rewrite elem_of_list_to_set, list_elem_of_fmap.
  split; intros (e & ? & ?); exists e; done.
Qed.

Lemma validate_fold (ids : gset string) rels orphaned valid :
  let res := foldl (validate_step ids) (orphaned, valid) rels in
  length res.1 + length res.2 = length orphaned + length valid + length rels /\
  length orphaned <= length res.1 /\
  (length res.1 = length orphaned <->
   Forall (fun rel => source_id rel ∈ ids /\ target_id rel ∈ ids) rels).
Proof.
  revert orphaned valid.
  induction rels as [|rel rels IH]; intros orphaned valid; simpl.
  { split; [lia|]. split; [lia|]. split; [by constructor|done]. }
  destruct (validate_step ids (orphaned, valid) rel) as [o' v'] eqn:E.
  destruct (IH o' v') as (H1 & H2 & H3). simpl in H1, H2, H3.
  unfold validate_step in E.
  repeat case_bool_decide; injection E as <- <-;
    rewrite ?length_app in *; simpl in *.
  - split; [lia|]. split; [lia|]. split; [lia|].
    intros HF. apply Forall_cons in HF as [[? ?] _]. done.
  - split; [lia|]. split; [lia|]. split; [lia|].
    intros HF. apply Forall_cons in HF as [[? ?] _]. done.
  - split; [lia|]. split; [lia|]. rewrite H3, Forall_cons.
    tauto.
Qed.

Lemma validate_entity_relationships_report (b : SurveyKGBuilder) :
  let r := (validate_entity_relationships b).1 in
  total_relationships r = length (relationships b) /\
  valid_relationships r + length (orphaned_relationships r) = total_relationships r /\
  (validation_passed r = true <->
   forall rel, rel ∈ relationships b -> resolved (entities b) rel) /\
  (validate_entity_relationships b).2 = b.
Proof.
  unfold validate_entity_relationships.
  pose proof (validate_fold (list_to_set (map entity_id (entities b)))
                (relationships b) [] []) as (H1 & _ & H3).
  destruct (foldl _ _ _) as [orphaned valid]. simpl in *.
  split; [done|]. split; [lia|]. split; [|done].
  rewrite Nat.eqb_eq, H3, Forall_forall. unfold resolved.
  setoid_rewrite elem_of_entity_ids. done.
Qed.

(** C5.  The validator counts every input relationship, splits the count
    into valid and orphaned, passes exactly when every relationship has
    both endpoints among the entity IDs, and hands the builder back as it
    was: no entity and no relationship is changed or dropped. *)
Theorem validate_entity_relationships_spec (b : SurveyKGBuilder) :
  let r := (validate_entity_relationships b).1 in
  total_relationships r = length (relationships b) /\
  valid_relationships r + length (orphaned_relationships r) = total_relationships r /\
  (validation_passed r = true <->
   forall rel, rel ∈ relationships b -> resolved (entities b) rel) /\
  (validate_entity_relationships b).2 = b.
Proof. apply validate_entity_relationships_report. Qed.


(** ** Respondent extraction *)

Lemma py_or_safe_convert v d :
  py_or (_safe_convert_value v) d = default d (_safe_convert_value v).
Proof.
  destruct (_safe_convert_value v) as [s|] eqn:E; simpl; [|done].
  apply safe_convert_value_Some in E as [_ Hne].
  apply String.eqb_neq in Hne. by rewrite Hne.
Qed.

Lemma iterrows_snoc cols dt rows cs :
  iterrows (mkDataFrame cols dt (rows ++ [cs])) =
  iterrows (mkDataFrame cols dt rows) ++ [(length rows, mkSeries cols cs)].
Proof.
  unfold iterrows. simpl. rewrite imap_app. simpl. by rewrite Nat.add_0_r.
Qed.

Lemma iterrows_length df : length (iterrows df) = length (data df).
Proof. unfold iterrows. by rewrite length_imap. Qed.

Lemma iterrows_lookup df i ir :
  iterrows df !! i = Some ir <->
  exists cs, data df !! i = Some cs /\ ir = (i, mkSeries (columns df) cs).
Proof.
  unfold iterrows. rewrite list_lookup_imap.
  destruct (data df !! i) as [cs|]; simpl.
  - split; [intros [= <-]; eauto|]. by intros (cs' & [= <-] & ->).
  - split; [done|]. by intros (cs' & ? & _).
Qed.

Section RespondentExtraction.
Variable now : nat -> datetime.

Lemma respondent_step_spec b idx row :
  let b' := respondent_step now b (idx, row) in
  let rid := zfill 6 (respondent_counter b) +:+ strftime_stamp (now (clock_reads b)) in
  exists e,
    entities b' = entities b ++ [e] /\
    entity_id e = rid /\
    spec_respondent_entity now row idx e /\
    relationships b' = relationships b /\
    respondent_counter b' = respondent_counter b + 1 /\
    respondent_id_mapping b' = <[idx := rid]> (respondent_id_mapping b) /\
    clock_reads b < clock_reads b'.
Proof.
  unfold respondent_step, read_clock. simpl.
  rewrite !py_or_safe_convert.
  destruct (_safe_convert_value (row_get row "YEARRAW")) as [y|] eqn:Ey.
  - destruct (safe_convert_value_Some _ _ Ey) as [_ Hne].
    apply String.eqb_neq in Hne. rewrite Hne. simpl.
    eexists. split; [reflexivity|]. simpl. split; [done|].
    split; [|repeat split; lia].
    split; [done|]. do 3 eexists. split; [reflexivity|].
    simpl. rewrite Ey. done.
  - simpl. eexists. split; [reflexivity|]. simpl. split; [done|].
    split; [|repeat split; lia].
    split; [done|]. do 3 eexists. split; [reflexivity|].
    simpl. rewrite Ey. split; [done|]. split; [done|]. eauto.
Qed.

Lemma extract_respondent_entities_inv b df :
  respondents_extracted now b (columns df) (data df)
    (extract_respondent_entities now b df).
Proof.
  unfold extract_respondent_entities, respondents_extracted.
  destruct df as [cols dt rows]. simpl.
  induction rows as [|cs rows IH] using rev_ind.
  - exists []. simpl. rewrite app_nil_r.
    repeat split; try done; try lia.
  - rewrite iterrows_snoc, foldl_app. cbn [foldl].
    destruct IH as (es & He & Hl & Hr & Hc & Hk & Hnone & Hrows).
    set (b1 := foldl (respondent_step now) (set_mapping ∅ b)
                 (iterrows (mkDataFrame cols dt rows))) in *.
    destruct (respondent_step_spec b1 (length rows) (mkSeries cols cs))
      as (e & He' & Hid & Hspec & Hr' & Hc' & Hm' & Hk').
    exists (es ++ [e]). rewrite He', He, Hr', Hr, Hc', Hc, Hm', !length_app.
    simpl. split; [by rewrite app_assoc|]. split; [lia|]. split; [done|].
    split; [lia|]. split; [simpl in *; lia|]. split.
    + intros i Hi. rewrite lookup_insert_ne by lia. apply Hnone. lia.
    + intros i cs' Hi. destruct (decide (i = length rows)) as [->|Hne].
      * rewrite list_lookup_middle in Hi by done. injection Hi as <-.
        exists e, (clock_reads b1).
        rewrite list_lookup_middle by done. rewrite lookup_insert_eq.
        rewrite Hid, Hc. done.
      * assert (i < length rows).
        { apply lookup_lt_Some in Hi. rewrite length_app in Hi. simpl in Hi. lia. }
        rewrite lookup_app_l in Hi by done.
        destruct (Hrows i cs' Hi) as (e' & t & H1 & H2 & H3 & H4).
        exists e', t. rewrite lookup_app_l by lia.
        rewrite lookup_insert_ne by done. done.
Qed.

End RespondentExtraction.


(** ** Grouped-response extraction *)

Lemma dict_set_fresh {V} (k : string) (v : V) (d : list (string * V)) :
  k ∉ d.*1 -> dict_set k v d = d ++ [(k, v)].
Proof.
  induction d as [|[k' v'] d IH]; simpl; [done|].
  rewrite not_elem_of_cons. intros [Hne Hd].
  destruct (String.eqb_spec k' k) as [->|_]; [done|]. by rewrite IH.
Qed.

Lemma dict_set_values {V} (P : V -> Prop) (k : string) (v : V) (d : list (string * V)) :
  P v -> Forall (fun kv => P kv.2) d -> Forall (fun kv => P kv.2) (dict_set k v d).
Proof.
  intros Hv. induction d as [|[k' v'] d IH]; simpl; intros Hd.
  - by repeat constructor.
  - apply Forall_cons in Hd as [Hv' Hd].
    destruct (String.eqb k' k); constructor; auto.
Qed.


Lemma non_null_app d1 d2 : non_null (d1 ++ d2) = non_null d1 ++ non_null d2.
Proof. unfold non_null. apply omap_app. Qed.

Section ResponseExtraction.
Variable ontology : Ontology.
Variable now : nat -> datetime.


Lemma collect_responses_distinct row field_set :
  NoDup (get_descriptive_field_name ontology <$> filter (fun f => f ∈ index row) field_set) ->
  collect_responses ontology row field_set =
  (fun f => (get_descriptive_field_name ontology f, _safe_convert_value (row_get row f))) <$>
    filter (fun f => f ∈ index row) field_set.
Proof.
  unfold collect_responses.
  assert (H : forall acc,
    NoDup (acc.*1 ++ (get_descriptive_field_name ontology <$> filter (fun f => f ∈ index row) field_set)) ->
    foldl (fun category_responses field =>
             if bool_decide (field ∈ index row) then
               dict_set (get_descriptive_field_name ontology field)
                        (_safe_convert_value (row_get row field))
                        category_responses
             else category_responses) acc field_set =
    acc ++ ((fun f => (get_descriptive_field_name ontology f, _safe_convert_value (row_get row f))) <$>
              filter (fun f => f ∈ index row) field_set)).
  { induction field_set as [|f fs IH]; intros acc Hnd; simpl.
    - by rewrite app_nil_r.
    - rewrite filter_cons in *. case_bool_decide as Hin.
      + rewrite decide_True in * by done. simpl in *.
        apply NoDup_app in Hnd as Hnd'. destruct Hnd' as (_ & Hdis & _).
        rewrite dict_set_fresh.
        * rewrite IH; [by rewrite <- app_assoc|].
          rewrite fmap_app. simpl. rewrite <- app_assoc. done.
        * intros Hk. apply (Hdis _ Hk). left.
      + rewrite decide_False in * by done. by apply IH. }
  intros Hnd. by rewrite H.
Qed.


Lemma has_responses_answered row field_set :
  NoDup (get_descriptive_field_name ontology <$> filter (fun f => f ∈ index row) field_set) ->
  Exists (answered row) field_set ->
  has_responses ontology row field_set = true.
Proof.
  intros Hnd Hex. unfold has_responses.
  rewrite collect_responses_distinct by done.
  apply Exists_exists in Hex as (f & Hf & Hin & Hv).
  apply list_elem_of_split in Hf as (l1 & l2 & ->).
  rewrite filter_app, filter_cons, decide_True by done.
  rewrite fmap_app, non_null_app. simpl.
  destruct (_safe_convert_value (row_get row f)) as [v|] eqn:E; [|done].
  unfold non_null at 2. simpl.
  by destruct (non_null _).
Qed.

Lemma response_step_skipped rid row b cat field_set :
  has_responses ontology row field_set = false ->
  response_step ontology now rid row b (cat, field_set) = b.
Proof.
  unfold has_responses, response_step.
  by destruct (non_null (collect_responses ontology row field_set)).
Qed.

Lemma response_step_created rid row b cat field_set :
  has_responses ontology row field_set = true ->
  exists e r,
    response_step ontology now rid row b (cat, field_set) =
      add_relationship r (tick (add_entity e b)) /\
    entity_id e = rid +:+ "_" +:+ lower cat /\
    entity_type e = get_category_class_name ontology cat /\
    source_id r = rid /\ target_id r = entity_id e /\
    relationship_type r = cat.
Proof.
  unfold has_responses, response_step.
  destruct (non_null (collect_responses ontology row field_set)); [done|].
  intros _. do 2 eexists. split; [reflexivity|]. done.
Qed.

End ResponseExtraction.



(** ** How each phase extends the builder *)

Lemma extends_refl b : extends b b [] [].
Proof. unfold extends. by rewrite !app_nil_r. Qed.

Lemma extends_trans b1 b2 b3 e1 r1 e2 r2 :
  extends b1 b2 e1 r1 -> extends b2 b3 e2 r2 -> extends b1 b3 (e1 ++ e2) (r1 ++ r2).
Proof.
  intros (Hm & Hc & He & Hr) (Hm' & Hc' & He' & Hr'). unfold extends.
  rewrite Hm', Hm, Hc', Hc, He', He, Hr', Hr, !app_assoc. done.
Qed.

Lemma extends_add_entity b e : extends b (add_entity e b) [entity_key e] [].
Proof. unfold extends. simpl. by rewrite fmap_app, app_nil_r. Qed.

Lemma extends_add_relationship b r : extends b (add_relationship r b) [] [rel_key r].
Proof. unfold extends. simpl. by rewrite fmap_app, app_nil_r. Qed.

Lemma extends_tick b : extends b (tick b) [] [].
Proof. unfold extends. simpl. by rewrite !app_nil_r. Qed.

Lemma extends_foldl {A} (step : SurveyKGBuilder -> A -> SurveyKGBuilder)
    (ek : gmap nat string -> A -> list (string * string))
    (rk : gmap nat string -> A -> list (string * string * string)) (l : list A) :
  (forall b a, a ∈ l ->
     extends b (step b a) (ek (respondent_id_mapping b) a)
                          (rk (respondent_id_mapping b) a)) ->
  forall b, extends b (foldl step b l)
              (l ≫= ek (respondent_id_mapping b))
              (l ≫= rk (respondent_id_mapping b)).
Proof.
  induction l as [|a l IH]; intros Hstep b; simpl.
  - apply extends_refl.
  - assert (Ha := Hstep b a ltac:(left)).
    eapply extends_trans; [exact Ha|].
    destruct Ha as (Hm & _). rewrite <- Hm.
    apply IH. intros b' a' Hin. apply Hstep. by right.
Qed.

Section Phases.
Variable ontology : Ontology.
Variable now : nat -> datetime.

Lemma response_step_extends rid row b (c : string * list string) :
  extends b (response_step ontology now rid row b c)
    (if has_responses ontology row c.2
     then [(rid +:+ "_" +:+ lower c.1, get_category_class_name ontology c.1)]
     else [])
    (if has_responses ontology row c.2
     then [(rid, rid +:+ "_" +:+ lower c.1, c.1)] else []).
Proof.
  destruct c as [cat fs]. cbn [fst snd].
  destruct (has_responses ontology row fs) eqn:E.
  - destruct (response_step_created ontology now rid row b cat fs E)
      as (e & r & -> & Hid & Hty & Hs & Ht & Hrt).
    change [(rid +:+ "_" +:+ lower cat, get_category_class_name ontology cat)]
      with ([(rid +:+ "_" +:+ lower cat, get_category_class_name ontology cat)]
              ++ [] ++ []).
    change [(rid, rid +:+ "_" +:+ lower cat, cat)]
      with ([] ++ [] ++ [(rid, rid +:+ "_" +:+ lower cat, cat)]).
    eapply extends_trans; [|eapply extends_trans].
    + rewrite <- Hid, <- Hty. apply extends_add_entity.
    + apply extends_tick.
    + replace (rid, rid +:+ "_" +:+ lower cat, cat) with (rel_key r)
        by (unfold rel_key; by rewrite Hs, Ht, Hid, Hrt).
      apply extends_add_relationship.
  - rewrite response_step_skipped by done. apply extends_refl.
Qed.

Lemma filter_bind_keys {A B} (P : A -> bool) (f : A -> B) (l : list A) :
  l ≫= (fun a => if P a then [f a] else []) = f <$> filter (fun a => P a = true) l.
Proof.
  induction l as [|a l IH]; [done|].
  rewrite bind_cons, filter_cons, IH.
  destruct (P a); [rewrite decide_True by done|rewrite decide_False by done]; done.
Qed.

Lemma response_row_step_extends b (ir : nat * Series) :
  extends b (response_row_step ontology now b ir)
    (response_entity_keys ontology (respondent_id_mapping b) ir)
    (response_rel_keys ontology (respondent_id_mapping b) ir).
Proof.
  destruct ir as [idx row].
  unfold response_row_step, response_entity_keys, response_rel_keys, mapped. simpl.
  destruct (respondent_id_mapping b !! idx) as [rid|]; [|apply extends_refl].
  destruct (String.eqb rid ""); [apply extends_refl|].
  pose proof (extends_foldl (response_step ontology now rid row)
    (fun _ c => if has_responses ontology row c.2
       then [(rid +:+ "_" +:+ lower c.1, get_category_class_name ontology c.1)]
       else [])
    (fun _ c => if has_responses ontology row c.2
       then [(rid, rid +:+ "_" +:+ lower c.1, c.1)] else [])
    (RELATIONSHIP_MAPPINGS ontology)
    (fun b' c _ => response_step_extends rid row b' c) b) as H.
  cbv beta in H.
  rewrite (filter_bind_keys (fun c : string * list string => has_responses ontology row c.2)
             (fun c => (rid +:+ "_" +:+ lower c.1, get_category_class_name ontology c.1)))
    in H.
  rewrite (filter_bind_keys (fun c : string * list string => has_responses ontology row c.2)
             (fun c => (rid, rid +:+ "_" +:+ lower c.1, c.1))) in H.
  unfold response_categories.
  rewrite <- !list_fmap_compose. exact H.
Qed.

Lemma extract_response_entities_extends b df :
  extends b (extract_response_entities ontology now b df)
    (iterrows df ≫= response_entity_keys ontology (respondent_id_mapping b))
    (iterrows df ≫= response_rel_keys ontology (respondent_id_mapping b)).
Proof.
  apply (extends_foldl (response_row_step ontology now)
           (response_entity_keys ontology) (response_rel_keys ontology)).
  intros b' ir _. apply response_row_step_extends.
Qed.

Lemma question_fold_extends df cols b processed :
  extends b (foldl (question_step ontology df) (b, processed) cols).1
    ((fun c => ("question_" +:+ get_descriptive_field_name ontology c, "Question"))
       <$> question_columns ontology processed cols) [].
Proof.
  revert b processed.
  induction cols as [|c cols IH]; intros b processed; cbn [foldl question_columns].
  - apply extends_refl.
  - unfold question_step at 2. repeat case_bool_decide; try apply IH.
    rewrite fmap_cons.
    eapply (extends_trans _ _ _ [_] [] _ []); [|apply IH].
    apply extends_add_entity.
Qed.

Lemma extract_question_entities_extends b df :
  extends b (extract_question_entities ontology b df)
    (question_entity_keys ontology (columns df)) [].
Proof. apply question_fold_extends. Qed.

Lemma has_respondent_step_extends p b (ir : nat * Series) :
  extends b (has_respondent_step p (safe_project_name p) b ir) []
    (has_respondent_keys (respondent_id_mapping b) p ir).
Proof.
  unfold has_respondent_step, has_respondent_keys, mapped.
  destruct (respondent_id_mapping b !! ir.1) as [rid|]; [|apply extends_refl].
  destruct (String.eqb rid ""); [apply extends_refl|].
  apply extends_add_relationship.
Qed.

Lemma bind_nil_all {A B} (l : list A) : l ≫= (fun _ => @nil B) = [].
Proof. induction l; [done|]. by rewrite bind_cons, IHl. Qed.

Lemma survey_step_extends df b p :
  extends b (survey_step df b p) [survey_entity_key p]
    (survey_rel_keys (respondent_id_mapping b) df p).
Proof.
  unfold survey_step. cbv zeta.
  match goal with
  | |- extends _ (foldl _ (add_entity ?e _) _) _ _ => set (ent := e)
  end.
  apply (extends_trans b (add_entity ent b) _ [survey_entity_key p] [] []
           (survey_rel_keys (respondent_id_mapping b) df p)).
  { apply (extends_add_entity b ent). }
  pose proof (extends_foldl (has_respondent_step p (safe_project_name p))
    (fun _ _ => []) (fun m => has_respondent_keys m p) (project_rows df p)
    (fun b' ir _ => has_respondent_step_extends p b' ir) (add_entity ent b)) as H.
  cbv beta in H. rewrite bind_nil_all in H. exact H.
Qed.

Lemma project_names_no_column df :
  "PROJECT_NAME" ∉ columns df -> project_names df = [].
Proof.
  intros Hnot. unfold project_names, column_values.
  assert (H : forall cs, row_get (mkSeries (columns df) cs) "PROJECT_NAME" = VNone).
  { intros cs. unfold row_get. simpl. revert cs Hnot.
    induction (columns df) as [|c cols IH]; intros cs Hnot; simpl; [done|].
    apply not_elem_of_cons in Hnot as [Hne Hnot].
    destruct (String.eqb_spec c "PROJECT_NAME") as [->|_]; [done|]. by apply IH. }
  induction (data df) as [|cs rows IH]; [done|].
  simpl. rewrite H, filter_cons. simpl. exact IH.
Qed.

Lemma extract_survey_metadata_extends b df :
  extends b (extract_survey_metadata b df)
    (survey_entity_key <$> project_names df)
    (project_names df ≫= survey_rel_keys (respondent_id_mapping b) df).
Proof.
  unfold extract_survey_metadata. case_bool_decide as Hin.
  - pose proof (extends_foldl (survey_step df)
      (fun _ p => [survey_entity_key p]) (fun m => survey_rel_keys m df)
      (project_names df) (fun b' p _ => survey_step_extends df b' p) b) as H.
    replace (project_names df ≫= (fun p => [survey_entity_key p]))
      with (survey_entity_key <$> project_names df) in H; [exact H|].
    clear H. induction (project_names df) as [|p ps IH]; [done|].
    rewrite bind_cons, fmap_cons, IH. done.
  - rewrite project_names_no_column by done. apply extends_refl.
Qed.

End Phases.

(** ** The shape of a whole run *)

Section Run.
Variable ontology : Ontology.
Variable now : nat -> datetime.

Lemma respondents_extracted_keys b0 df b1 :
  respondents_extracted now b0 (columns df) (data df) b1 ->
  respondent_ids_assigned now (respondent_counter b0) (length (data df))
    (respondent_id_mapping b1) /\
  entity_key <$> entities b1 =
    (entity_key <$> entities b0) ++
    respondent_entity_keys (respondent_id_mapping b1) (length (data df)) /\
  rel_key <$> relationships b1 = rel_key <$> relationships b0.
Proof.
  intros (es & He & Hl & Hr & Hc & Hk & Hnone & Hrows).
  split; [|split].
  - split; [|done]. intros i Hi.
    destruct (lookup_lt_is_Some_2 (data df) i Hi) as [cs Hcs].
    destruct (Hrows i cs Hcs) as (e & t & _ & Hm & Hid & _).
    exists t. by rewrite Hm, Hid.
  - rewrite He, fmap_app. f_equal. unfold respondent_entity_keys.
    apply list_eq. intros i. rewrite !list_lookup_fmap.
    destruct (decide (i < length (data df))) as [Hi|Hi].
    + destruct (lookup_lt_is_Some_2 (data df) i Hi) as [cs Hcs].
      destruct (Hrows i cs Hcs) as (e & t & Hes & Hm & _ & Hty & _).
      rewrite Hes, lookup_seq_lt by done. simpl. rewrite Hm. simpl.
      unfold entity_key. by rewrite Hty.
    + rewrite lookup_ge_None_2 by lia.
      rewrite lookup_ge_None_2; [done|]. rewrite length_seq. lia.
  - by rewrite Hr.
Qed.

(** One run appends to the builder the entities and relationships of the
    keys [run_entity_keys] and [run_rel_keys], for the mapping it leaves. *)
Lemma build_knowledge_graph_shape b df :
  let b' := build_knowledge_graph ontology now b df in
  let m := respondent_id_mapping b' in
  respondent_ids_assigned now 1 (length (data df)) m /\
  entity_key <$> entities b' =
    (entity_key <$> entities b) ++ run_entity_keys ontology m df /\
  rel_key <$> relationships b' =
    (rel_key <$> relationships b) ++ run_rel_keys ontology m df.
Proof.
  unfold build_knowledge_graph. cbv zeta.
  set (b0 := set_mapping ∅ (set_counter 1 b)).
  set (b1 := extract_respondent_entities now b0 df).
  set (b2 := extract_response_entities ontology now b1 df).
  set (b3 := extract_question_entities ontology b2 df).
  destruct (respondents_extracted_keys b0 df b1
              (extract_respondent_entities_inv now b0 df)) as (Hm1 & He1 & Hr1).
  pose proof (extract_response_entities_extends ontology now b1 df) as H2.
  pose proof (extract_question_entities_extends ontology b2 df) as H3.
  pose proof (extract_survey_metadata_extends b3 df) as H4.
  fold b2 in H2. fold b3 in H3.
  pose proof (extends_trans _ _ _ _ _ _ _ H2 H3) as H23.
  destruct H3 as (Hm3 & _). destruct H2 as (Hm2 & _).
  rewrite Hm3, Hm2 in H4.
  pose proof (extends_trans _ _ _ _ _ _ _ H23 H4) as (Hm & _ & He & Hr).
  rewrite Hm. split; [exact Hm1|].
  rewrite He, Hr, He1, Hr1. unfold run_entity_keys, run_rel_keys.
  rewrite <- !app_assoc. done.
Qed.

End Run.

(** ** Numbers in strings *)

Lemma all_chars_app p s1 s2 :
  all_chars p (s1 +:+ s2) = all_chars p s1 && all_chars p s2.
Proof. induction s1 as [|c s1 IH]; simpl; [done|]. by rewrite IH, andb_assoc. Qed.

Lemma string_length_app s1 s2 :
  String.length (s1 +:+ s2) = String.length s1 + String.length s2.
Proof. induction s1 as [|c s1 IH]; simpl; [done|]. by rewrite IH. Qed.

Lemma string_app_inj_length s1 s2 t1 t2 :
  s1 +:+ t1 = s2 +:+ t2 -> String.length t1 = String.length t2 ->
  s1 = s2 /\ t1 = t2.
Proof.
  revert s2. induction s1 as [|c s1 IH]; intros [|c' s2]; simpl; intros Heq Hlen.
  - done.
  - apply (f_equal String.length) in Heq.
    rewrite ?string_length_app in Heq. simpl in Heq.
    rewrite ?string_length_app in Heq. lia.
  - apply (f_equal String.length) in Heq.
    rewrite ?string_length_app in Heq. simpl in Heq.
    rewrite ?string_length_app in Heq. lia.
  - injection Heq as -> Heq. destruct (IH _ Heq Hlen) as [-> ->]. done.
Qed.

Lemma string_app_inj_l s t1 t2 : s +:+ t1 = s +:+ t2 -> t1 = t2.
Proof. induction s as [|c s IH]; simpl; [done|]. intros [= H]. by apply IH. Qed.

Lemma str_nat_digits n : all_chars isdigit (str_nat n) = true.
Proof.
  unfold str_nat. induction (Nat.to_uint n) as [|d IH|d IH|d IH|d IH|d IH|d IH|d IH|d IH|d IH|d IH];
    simpl; done.
Qed.

Lemma str_nat_nonempty n : str_nat n <> "".
Proof.
  unfold str_nat. intros H.
  pose proof (NilEmpty.usu (Nat.to_uint n)) as Hu. rewrite H in Hu.
  simpl in Hu. injection Hu as Hu.
  pose proof (Unsigned.of_to n) as Hn. rewrite <- Hu in Hn. simpl in Hn.
  subst n. discriminate Hu.
Qed.

Lemma str_nat_inj n1 n2 : str_nat n1 = str_nat n2 -> n1 = n2.
Proof.
  unfold str_nat. intros H.
  pose proof (NilEmpty.usu (Nat.to_uint n1)) as H1.
  pose proof (NilEmpty.usu (Nat.to_uint n2)) as H2.
  rewrite H, H2 in H1. injection H1 as H1.
  by rewrite <- (Unsigned.of_to n1), <- (Unsigned.of_to n2), H1.
Qed.

Lemma zeros_digits k : all_chars isdigit (zeros k) = true.
Proof. induction k; simpl; done. Qed.

Lemma zeros_length k : String.length (zeros k) = k.
Proof. induction k; simpl; [done|]. by rewrite IHk. Qed.

Lemma zfill_digits w n : all_chars isdigit (zfill w n) = true.
Proof. unfold zfill. by rewrite all_chars_app, zeros_digits, str_nat_digits. Qed.

Lemma zfill_length w n :
  String.length (zfill w n) = w `max` String.length (str_nat n).
Proof. unfold zfill. rewrite string_length_app, zeros_length. lia. Qed.

Lemma zfill_nonempty w n : zfill w n <> "".
Proof.
  intros H. apply (f_equal String.length) in H. rewrite zfill_length in H.
  pose proof (str_nat_nonempty n) as Hn.
  destruct (str_nat n); [done|]. simpl in H. lia.
Qed.

(** The number a string of digits reads as; leading zeros do not count. *)
Lemma uint_of_zeros k s :
  NilEmpty.uint_of_string (zeros k +:+ s) =
  Nat.iter k (fun o => Decimal.D0 <$> o) (NilEmpty.uint_of_string s).
Proof. induction k as [|k IH]; simpl; [done|]. by rewrite IH. Qed.

Lemma of_uint_zeros k d :
  (Nat.iter k (fun o => Decimal.D0 <$> o) (Some d)) ≫= (fun u => Some (Nat.of_uint u))
  = Some (Nat.of_uint d).
Proof.
  induction k as [|k IH]; simpl; [done|].
  destruct (Nat.iter k _ (Some d)) as [u|]; simpl in *; [|done].
  injection IH as IH. by rewrite <- IH.
Qed.

Lemma zfill_inj w n1 n2 : zfill w n1 = zfill w n2 -> n1 = n2.
Proof.
  unfold zfill, str_nat. intros H.
  apply (f_equal (fun s => NilEmpty.uint_of_string s ≫= fun u => Some (Nat.of_uint u))) in H.
  rewrite !uint_of_zeros, !NilEmpty.usu, !of_uint_zeros, !Unsigned.of_to in H.
  by injection H.
Qed.

Lemma str_nat_length_2 n : n < 100 -> String.length (str_nat n) <= 2.
Proof.
  intros Hn.
  assert (H : forallb (fun k => String.length (str_nat k) <=? 2) (seq 0 100) = true)
    by (vm_compute; reflexivity).
  rewrite forallb_forall in H. apply Nat.leb_le, H, in_seq. lia.
Qed.

Lemma str_nat_length_4 n : n <= MAXYEAR -> String.length (str_nat n) <= 4.
Proof.
  intros Hn.
  assert (H : forallb (fun k => String.length (str_nat k) <=? 4) (seq 0 (S MAXYEAR)) = true)
    by (vm_compute; reflexivity).
  rewrite forallb_forall in H. apply Nat.leb_le, H, in_seq. unfold MAXYEAR in *. lia.
Qed.

Lemma strftime_stamp_length t :
  valid_datetime t -> String.length (strftime_stamp t) = 14.
Proof.
  intros (Hy & Hm & Hd & Hh & Hmi & Hs). unfold strftime_stamp.
  rewrite !string_length_app, !zfill_length.
  pose proof (str_nat_length_4 (year t) ltac:(lia)).
  pose proof (str_nat_length_2 (month t) ltac:(lia)).
  pose proof (str_nat_length_2 (day t) ltac:(lia)).
  pose proof (str_nat_length_2 (hour t) ltac:(lia)).
  pose proof (str_nat_length_2 (minute t) ltac:(lia)).
  pose proof (str_nat_length_2 (second t) ltac:(lia)).
  lia.
Qed.

Lemma strftime_stamp_digits t : all_chars isdigit (strftime_stamp t) = true.
Proof. unfold strftime_stamp. by rewrite !all_chars_app, !zfill_digits. Qed.

(** ** Determinism of structure *)

Lemma fmap_bind_comm {A B C} (f : B -> C) (g : A -> list B) (l : list A) :
  f <$> (l ≫= g) = l ≫= (fun x => f <$> g x).
Proof.
  induction l as [|x l IH]; [done|]. by rewrite !bind_cons, fmap_app, IH.
Qed.

Lemma mapped_assigned now c0 n m i :
  respondent_ids_assigned now c0 n m -> i < n ->
  exists t, mapped m i = Some (zfill 6 (c0 + i) +:+ strftime_stamp (now t)) /\
            m !! i = Some (zfill 6 (c0 + i) +:+ strftime_stamp (now t)).
Proof.
  intros [Hin _] Hi. destruct (Hin i Hi) as [t Ht]. exists t. split; [|done].
  unfold mapped. rewrite Ht.
  destruct (String.eqb_spec (zfill 6 (c0 + i) +:+ strftime_stamp (now t)) "") as [He|_];
    [|done].
  pose proof (zfill_nonempty 6 (c0 + i)) as Hz.
  destruct (zfill 6 (c0 + i)); [done|discriminate He].
Qed.

Lemma iterrows_label df ir : ir ∈ iterrows df -> ir.1 < length (data df).
Proof.
  intros [i Hi]%list_elem_of_lookup.
  apply iterrows_lookup in Hi as (cs & Hcs & ->). simpl.
  by apply lookup_lt_Some in Hcs.
Qed.

Lemma project_rows_iterrows df p ir : ir ∈ project_rows df p -> ir ∈ iterrows df.
Proof. unfold project_rows. rewrite list_elem_of_filter. tauto. Qed.

Lemma run_entity_types_of_keys ontology now c0 m df :
  respondent_ids_assigned now c0 (length (data df)) m ->
  snd <$> run_entity_keys ontology m df = run_entity_types ontology df.
Proof.
  intros Hm. unfold run_entity_keys, run_entity_types.
  rewrite !fmap_app. f_equal; [|f_equal; [|f_equal]].
  - unfold respondent_entity_keys. rewrite <- list_fmap_compose.
    rewrite (const_fmap _ _ "Respondent") by done. by rewrite length_seq.
  - rewrite fmap_bind_comm. apply Forall_bind_ext, Forall_forall.
    intros ir Hir. apply iterrows_label in Hir.
    destruct (mapped_assigned _ _ _ _ _ Hm Hir) as (t & Hmp & _).
    unfold response_entity_keys. rewrite Hmp.
    by rewrite <- list_fmap_compose.
  - unfold question_entity_keys. by rewrite <- list_fmap_compose.
  - by rewrite <- list_fmap_compose.
Qed.

Lemma bind_singletons {A B} (g : A -> list B) (f : A -> B) (l : list A) :
  (forall x, x ∈ l -> g x = [f x]) -> l ≫= g = f <$> l.
Proof.
  induction l as [|x l IH]; intros H; [done|].
  rewrite bind_cons, fmap_cons, H by left. simpl. f_equal.
  apply IH. intros y Hy. apply H. by right.
Qed.

Lemma run_rel_types_of_keys ontology now c0 m df :
  respondent_ids_assigned now c0 (length (data df)) m ->
  snd <$> run_rel_keys ontology m df = run_rel_types ontology df.
Proof.
  intros Hm. unfold run_rel_keys, run_rel_types.
  rewrite !fmap_app. f_equal.
  - rewrite fmap_bind_comm. apply Forall_bind_ext, Forall_forall.
    intros ir Hir. apply iterrows_label in Hir.
    destruct (mapped_assigned _ _ _ _ _ Hm Hir) as (t & Hmp & _).
    unfold response_rel_keys. rewrite Hmp.
    rewrite <- list_fmap_compose. by rewrite list_fmap_id.
  - rewrite fmap_bind_comm. apply Forall_bind_ext, Forall_forall.
    intros p _. unfold survey_rel_keys. rewrite fmap_bind_comm.
    apply bind_singletons. intros ir Hir.
    apply project_rows_iterrows, iterrows_label in Hir.
    destruct (mapped_assigned _ _ _ _ _ Hm Hir) as (t & Hmp & _).
    unfold has_respondent_keys. by rewrite Hmp.
Qed.

Lemma entity_type_of_key (es : list SurveyEntity) :
  entity_type <$> es = snd <$> (entity_key <$> es).
Proof. by rewrite <- list_fmap_compose. Qed.

Lemma relationship_type_of_key (rs : list SurveyRelationship) :
  relationship_type <$> rs = snd <$> (rel_key <$> rs).
Proof. by rewrite <- list_fmap_compose. Qed.

(** The types of the entities and relationships of a run are those the
    table and the ontology determine, whatever the clock reads. *)
Lemma build_knowledge_graph_types ontology now df :
  let b := build_knowledge_graph ontology now new_builder df in
  entity_type <$> entities b = run_entity_types ontology df /\
  relationship_type <$> relationships b = run_rel_types ontology df.
Proof.
  destruct (build_knowledge_graph_shape ontology now new_builder df)
    as (Hm & He & Hr).
  cbv zeta. rewrite entity_type_of_key, relationship_type_of_key, He, Hr.
  simpl. split.
  - eapply run_entity_types_of_keys, Hm.
  - eapply run_rel_types_of_keys, Hm.
Qed.


(** ** Referential closure *)

Lemma resolved_keys es rel :
  resolved es rel <->
  (rel_key rel).1.1 ∈ (entity_key <$> es).*1 /\
  (rel_key rel).1.2 ∈ (entity_key <$> es).*1.
Proof.
  unfold resolved. rewrite <- !list_fmap_compose, !list_elem_of_fmap. simpl.
  split; intros [(e1 & H1 & H2) (e2 & H3 & H4)]; split; eauto.
Qed.

Lemma mapped_lookup m i rid : mapped m i = Some rid -> m !! i = Some rid.
Proof.
  unfold mapped. destruct (m !! i) as [r|]; [|done].
  destruct (String.eqb r ""); [done|]. by intros [= ->].
Qed.

Lemma respondent_key_elem m n i rid :
  i < n -> mapped m i = Some rid -> rid ∈ (respondent_entity_keys m n).*1.
Proof.
  intros Hi Hm%mapped_lookup. unfold respondent_entity_keys.
  rewrite <- list_fmap_compose. apply list_elem_of_fmap.
  exists i. simpl. rewrite Hm. split; [done|]. apply elem_of_seq. lia.
Qed.

Lemma run_rel_keys_resolved ontology m df k :
  k ∈ run_rel_keys ontology m df ->
  k.1.1 ∈ (run_entity_keys ontology m df).*1 /\
  k.1.2 ∈ (run_entity_keys ontology m df).*1.
Proof.
  unfold run_rel_keys, run_entity_keys. rewrite !fmap_app, !elem_of_app.
  intros [Hk|Hk].
  - apply list_elem_of_bind in Hk as (ir & Hk & Hir).
    unfold response_rel_keys in Hk.
    destruct (mapped m ir.1) as [rid|] eqn:Hm; [|by apply elem_of_nil in Hk].
    apply list_elem_of_fmap in Hk as (c & -> & Hc). simpl. split.
    + left. eapply respondent_key_elem; [|done]. by apply iterrows_label.
    + right. left. apply list_elem_of_fmap.
      exists (rid +:+ "_" +:+ lower c, get_category_class_name ontology c).
      split; [done|]. apply list_elem_of_bind. exists ir. split; [|done].
      unfold response_entity_keys. rewrite Hm.
      apply list_elem_of_fmap. by exists c.
  - apply list_elem_of_bind in Hk as (p & Hk & Hp).
    unfold survey_rel_keys in Hk.
    apply list_elem_of_bind in Hk as (ir & Hk & Hir).
    unfold has_respondent_keys in Hk.
    destruct (mapped m ir.1) as [rid|] eqn:Hm; [|by apply elem_of_nil in Hk].
    apply list_elem_of_singleton in Hk as ->. simpl. split.
    + do 3 right. apply list_elem_of_fmap. exists (survey_entity_key p).
      split; [done|]. apply list_elem_of_fmap. by exists p.
    + left. eapply respondent_key_elem; [|done].
      by apply iterrows_label, project_rows_iterrows with p.
Qed.

(** A builder whose relationships are resolved still has them all
    resolved after a run, whatever the table, ontology and clock. *)
Lemma build_knowledge_graph_closed ontology now b df :
  (forall rel, rel ∈ relationships b -> resolved (entities b) rel) ->
  forall rel, rel ∈ relationships (build_knowledge_graph ontology now b df) ->
    resolved (entities (build_knowledge_graph ontology now b df)) rel.
Proof.
  intros Hb rel Hrel.
  destruct (build_knowledge_graph_shape ontology now b df) as (_ & He & Hr).
  cbv zeta in He, Hr. apply resolved_keys. rewrite He, !fmap_app, !elem_of_app.
  apply (list_elem_of_fmap_2 rel_key) in Hrel. rewrite Hr, elem_of_app in Hrel.
  destruct Hrel as [Hold|Hnew].
  - apply list_elem_of_fmap in Hold as (rel' & Hk & Hin).
    apply Hb, resolved_keys in Hin. rewrite Hk. tauto.
  - apply run_rel_keys_resolved in Hnew. tauto.
Qed.

(** C10.  The output of an extraction run is referentially closed: every
    relationship has its source and its target among the entity IDs of the
    same run, and the validator run on it reports no orphan. *)
Theorem extraction_referentially_closed (ontology : Ontology)
    (now : nat -> datetime) (df : DataFrame) :
  let b := build_knowledge_graph ontology now new_builder df in
  let report := (validate_entity_relationships b).1 in
  (forall rel, rel ∈ relationships b -> resolved (entities b) rel) /\
  validation_passed report = true /\
  orphaned_relationships report = [] /\
  valid_relationships report = length (relationships b).
Proof.
  cbv zeta.
  assert (Hclosed : forall rel,
    rel ∈ relationships (build_knowledge_graph ontology now new_builder df) ->
    resolved (entities (build_knowledge_graph ontology now new_builder df)) rel).
  { apply build_knowledge_graph_closed. intros rel Hrel. by apply elem_of_nil in Hrel. }
  split; [exact Hclosed|].
  destruct (validate_entity_relationships_report
              (build_knowledge_graph ontology now new_builder df))
    as (Ht & Hsum & Hpass & _).
  cbv zeta in Ht, Hsum, Hpass. apply Hpass in Hclosed.
  split; [exact Hclosed|].
  unfold validate_entity_relationships in *.
  destruct (foldl _ _ _) as [orphaned valid]. simpl in *.
  apply Nat.eqb_eq in Hclosed.
  split; [by destruct orphaned|]. lia.
Qed.

(** ** Respondent IDs *)

Lemma respondent_id_inj (now : nat -> datetime) c1 c2 t1 t2 :
  (forall t, valid_datetime (now t)) ->
  zfill 6 c1 +:+ strftime_stamp (now t1) = zfill 6 c2 +:+ strftime_stamp (now t2) ->
  c1 = c2.
Proof.
  intros Hnow Heq. apply string_app_inj_length in Heq as [Hz _].
  - by apply zfill_inj in Hz.
  - by rewrite !strftime_stamp_length.
Qed.

Lemma respondent_id_digits (now : nat -> datetime) c (t : nat) :
  all_chars isdigit (zfill 6 c +:+ strftime_stamp (now t)) = true.
Proof. by rewrite all_chars_app, zfill_digits, strftime_stamp_digits. Qed.

Lemma assigned_ids_distinct now c0 n m i j ri rj :
  (forall t, valid_datetime (now t)) ->
  respondent_ids_assigned now c0 n m ->
  m !! i = Some ri -> m !! j = Some rj -> ri = rj -> i = j.
Proof.
  intros Hnow [Hin Hout] Hi Hj Heq.
  assert (i < n) as Hi' by (destruct (decide (i < n)); [done|]; rewrite Hout in Hi by lia; done).
  assert (j < n) as Hj' by (destruct (decide (j < n)); [done|]; rewrite Hout in Hj by lia; done).
  destruct (Hin i Hi') as [ti Hti]. destruct (Hin j Hj') as [tj Htj].
  rewrite Hti in Hi. rewrite Htj in Hj. injection Hi as <-. injection Hj as <-.
  apply (respondent_id_inj now) in Heq; [lia|done].
Qed.

(** C4, as the code has it.  Within one extraction run the respondent IDs
    are the counter values 1, 2, ... in row order, each zero-padded to at
    least six digits and followed by the fourteen digits of a to-the-second
    clock reading, and the IDs of two different rows differ.  The counter
    restarts at 1 with every run, whatever the builder had generated
    before. *)
Theorem respondent_ids_within_run (ontology : Ontology) (now : nat -> datetime)
    (b : SurveyKGBuilder) (df : DataFrame) :
  (forall t, valid_datetime (now t)) ->
  let m := respondent_id_mapping (build_knowledge_graph ontology now b df) in
  (forall i, i < length (data df) ->
     exists t,
       m !! i = Some (zfill 6 (1 + i) +:+ strftime_stamp (now t)) /\
       6 <= String.length (zfill 6 (1 + i)) /\
       String.length (strftime_stamp (now t)) = 14 /\
       all_chars isdigit (zfill 6 (1 + i) +:+ strftime_stamp (now t)) = true) /\
  (forall i j ri rj, m !! i = Some ri -> m !! j = Some rj -> i <> j -> ri <> rj).
Proof.
  intros Hnow m.
  destruct (build_knowledge_graph_shape ontology now b df) as (Hm & _ & _).
  fold m in Hm. split.
  - intros i Hi. destruct Hm as [Hin _]. destruct (Hin i Hi) as [t Ht].
    exists t. split; [done|]. split; [rewrite zfill_length; lia|].
    split; [by apply strftime_stamp_length|apply respondent_id_digits].
  - intros i j ri rj Hi Hj Hne Heq.
    apply Hne. eapply assigned_ids_distinct; eauto.
Qed.

Lemma respondent_ids_within_run_witness :
  exists ri rj,
    respondent_id_mapping
      (build_knowledge_graph Scenario.ont Scenario.clock new_builder Scenario.df) !! 0
      = Some ri /\
    respondent_id_mapping
      (build_knowledge_graph Scenario.ont Scenario.clock new_builder Scenario.df) !! 2
      = Some rj /\
    ri <> rj.
Proof.
  exists "00000120250314092653", "00000320250314092653".
  assert (Hclock : forall t, valid_datetime (Scenario.clock t)).
  { intros t. unfold valid_datetime, MAXYEAR. simpl. lia. }
  assert (H0 : respondent_id_mapping
    (build_knowledge_graph Scenario.ont Scenario.clock new_builder Scenario.df) !! 0
      = Some "00000120250314092653") by (vm_compute; reflexivity).
  assert (H2 : respondent_id_mapping
    (build_knowledge_graph Scenario.ont Scenario.clock new_builder Scenario.df) !! 2
      = Some "00000320250314092653") by (vm_compute; reflexivity).
  split; [exact H0|]. split; [exact H2|].
  exact (proj2 (respondent_ids_within_run Scenario.ont Scenario.clock new_builder
                  Scenario.df Hclock) 0 2 _ _ H0 H2 ltac:(lia)).
Defined.

(** C4 as stated fails: a second run in the same process, within the same
    second, generates the ID the first run generated. *)
Lemma respondent_ids_reused_across_runs :
  let run1 := build_knowledge_graph Scenario.ont Scenario.clock new_builder Scenario.df in
  let run2 := build_knowledge_graph Scenario.ont Scenario.clock run1 Scenario.df in
  clock_reads run1 <> clock_reads run2 /\
  respondent_id_mapping run1 !! 0 = Some "00000120250314092653" /\
  respondent_id_mapping run2 !! 0 = Some "00000120250314092653".
Proof. vm_compute. split; [discriminate|]. split; reflexivity. Qed.

(** The method [generate_unique_respondent_id] does not repeat itself on
    one builder: two successive calls give different IDs. *)
Lemma generate_unique_respondent_id_successive now b idx1 idx2 :
  (forall t, valid_datetime (now t)) ->
  let g1 := generate_unique_respondent_id now b idx1 in
  let g2 := generate_unique_respondent_id now g1.2 idx2 in
  respondent_counter g1.2 = respondent_counter b + 1 /\ g1.1 <> g2.1.
Proof.
  intros Hnow. unfold generate_unique_respondent_id, read_clock. simpl.
  split; [done|]. intros Heq. apply (respondent_id_inj now) in Heq; [lia|done].
Qed.

(** Past 999999 the sequence number takes seven digits. *)
Example zfill_seven_digits : zfill 6 (10 * 100 * 1000) = "1000000".
Proof. vm_compute. reflexivity. Qed.

(** ** Uniqueness of entity IDs *)









Section Uniqueness.
Variable ontology : Ontology.
Variable now : nat -> datetime.
Variable df : DataFrame.
Variable m : gmap nat string.
Hypothesis Hnow : forall t, valid_datetime (now t).
Hypothesis Hm : respondent_ids_assigned now 1 (length (data df)) m.










End Uniqueness.





(** The other two ways to a shared ID: two columns under one descriptive
    name, and two category keys that differ in letter case only. *)
Example question_ids_collide :
  entity_id <$> entities
    (extract_question_entities Collide.ont new_builder
       (mkDataFrame ["Q1"; "Q2"] (fun _ => "object") []))
  = ["question_approval"; "question_approval"].
Proof. vm_compute. reflexivity. Qed.

Example response_ids_collide :
  entity_id <$> entities
    (build_knowledge_graph Collide.ont_case Scenario.clock new_builder Collide.df_case)
  = ["00000120250314092653";
     "00000120250314092653_opinions"; "00000120250314092653_opinions";
     "question_Q1"; "question_Q2"].
Proof. vm_compute. reflexivity. Qed.

(** ** The store: full-rebuild reset *)

Import Neo4j.

Lemma clear_batch_size_pos : 0 < clear_batch_size.
Proof. unfold clear_batch_size. lia. Qed.

Lemma ceil_div_0 d : 0 < d -> ceil_div 0 d = 0.
Proof. intros Hd. unfold ceil_div. apply Nat.div_small. lia. Qed.

Lemma ceil_div_step n d : 0 < d -> 0 < n -> ceil_div n d = S (ceil_div (n - d) d).
Proof.
  intros Hd Hn. unfold ceil_div. destruct (decide (d <= n)) as [Hle|Hlt].
  - replace (n + d - 1) with ((n - d + d - 1) + 1 * d) by lia.
    rewrite Nat.div_add by lia. lia.
  - replace (n - d) with 0 by lia. simpl.
    rewrite (Nat.div_small (d - 1)) by lia.
    symmetry. apply (Nat.div_unique _ _ 1 (n - 1)); lia.
Qed.

Lemma ceil_div_covers n d : 0 < d -> n <= ceil_div n d * d.
Proof.
  intros Hd. unfold ceil_div.
  pose proof (Nat.div_mod_eq (n + d - 1) d) as Hdm.
  pose proof (Nat.mod_upper_bound (n + d - 1) d ltac:(lia)) as Hr.
  nia.
Qed.

Lemma delete_all_relationships_unfold s :
  delete_all_relationships s =
  if (run (DeleteRelationships clear_batch_size) s).1 =? 0
  then (run (DeleteRelationships clear_batch_size) s).2
  else delete_all_relationships (run (DeleteRelationships clear_batch_size) s).2.
Proof.
  funelim (delete_all_relationships s); simpl.
  - match goal with H : (_ =? 0) = true |- _ => rewrite H end. done.
  - match goal with H : (_ =? 0) = false |- _ => rewrite H end. done.
Qed.

Lemma delete_all_nodes_unfold s :
  delete_all_nodes s =
  if (run (DeleteNodes clear_batch_size) s).1 =? 0
  then (run (DeleteNodes clear_batch_size) s).2
  else delete_all_nodes (run (DeleteNodes clear_batch_size) s).2.
Proof.
  funelim (delete_all_nodes s); simpl.
  - match goal with H : (_ =? 0) = true |- _ => rewrite H end. done.
  - match goal with H : (_ =? 0) = false |- _ => rewrite H end. done.
Qed.

Lemma replicate_snoc {A} (x : A) k : [x] ++ replicate k x = replicate k x ++ [x].
Proof. induction k as [|k IH]; simpl; [done|]. by rewrite <- IH. Qed.

Lemma delete_all_relationships_result n : forall s,
  length (edges s) = n ->
  delete_all_relationships s =
  mkStore (nodes s) []
    (queries s ++ replicate (S (ceil_div n clear_batch_size))
                            (DeleteRelationships clear_batch_size)).
Proof.
  pose proof clear_batch_size_pos as Hpos.
  induction n as [n IH] using lt_wf_ind. intros s Hn.
  rewrite delete_all_relationships_unfold. cbn [run fst snd]. rewrite length_take.
  destruct (Nat.eqb_spec (clear_batch_size `min` length (edges s)) 0) as [Hz|Hnz].
  - assert (n = 0) as -> by lia. rewrite ceil_div_0 by done.
    destruct (edges s); [|simpl in Hn; lia]. by rewrite drop_nil.
  - rewrite (IH (n - clear_batch_size)); cbn [nodes edges queries];
      [|lia|rewrite length_drop; lia].
    rewrite (ceil_div_step n) by lia.
    by rewrite <- app_assoc.
Qed.

Lemma delete_all_nodes_result n : forall s,
  length (nodes s) = n ->
  delete_all_nodes s =
  mkStore [] (edges s)
    (queries s ++ replicate (S (ceil_div n clear_batch_size))
                            (DeleteNodes clear_batch_size)).
Proof.
  pose proof clear_batch_size_pos as Hpos.
  induction n as [n IH] using lt_wf_ind. intros s Hn.
  rewrite delete_all_nodes_unfold. cbn [run fst snd]. rewrite length_take.
  destruct (Nat.eqb_spec (clear_batch_size `min` length (nodes s)) 0) as [Hz|Hnz].
  - assert (n = 0) as -> by lia. rewrite ceil_div_0 by done.
    destruct (nodes s); [|simpl in Hn; lia]. by rewrite drop_nil.
  - rewrite (IH (n - clear_batch_size)); cbn [nodes edges queries];
      [|lia|rewrite length_drop; lia].
    rewrite (ceil_div_step n) by lia.
    by rewrite <- app_assoc.
Qed.

(** C9.  Without confirmation [clear_database] returns the store as it
    was, no statement run.  With confirmation it runs relationship
    deletes, each of at most [clear_batch_size] relationships, until one
    deletes nothing, then node deletes in the same way, and leaves the
    store without relationships and without nodes. *)
Theorem clear_database_gated (s : Store) :
  clear_database s false = s /\
  nodes (clear_database s true) = [] /\
  edges (clear_database s true) = [] /\
  queries (clear_database s true) =
    queries s ++
    replicate (S (ceil_div (length (edges s)) clear_batch_size))
              (DeleteRelationships clear_batch_size) ++
    replicate (S (ceil_div (length (nodes s)) clear_batch_size))
              (DeleteNodes clear_batch_size) /\
  (run (DeleteRelationships clear_batch_size) s).1 <= clear_batch_size /\
  (run (DeleteNodes clear_batch_size) s).1 <= clear_batch_size.
Proof.
  split; [done|]. unfold clear_database.
  rewrite (delete_all_relationships_result _ s eq_refl).
  rewrite (delete_all_nodes_result (length (nodes s))) by done. simpl.
  rewrite <- app_assoc. repeat split; try done.
  - rewrite length_take. lia.
  - rewrite length_take. lia.
Qed.

Example clear_database_small :
  clear_database (mkStore [mkNode "Respondent" []; mkNode "Survey" []]
                          [mkEdge 1 0 "HAS_RESPONDENT" []] []) true
  = mkStore [] []
      [DeleteRelationships clear_batch_size; DeleteRelationships clear_batch_size;
       DeleteNodes clear_batch_size; DeleteNodes clear_batch_size].
Proof. vm_compute. reflexivity. Qed.

(** ** The store: batched loading *)

Lemma py_range_positive stop (step : Z) :
  (1 <= step)%Z ->
  py_range stop step =
  Some ((fun k => k * Z.to_nat step) <$> seq 0 (ceil_div stop (Z.to_nat step))).
Proof.
  intros Hs. unfold py_range.
  destruct (Z.eqb_spec step 0); [lia|]. destruct (Z.ltb_spec step 0); [lia|]. done.
Qed.

Lemma chunks_concat {A} st k : forall l : list A,
  length l <= k * st ->
  concat ((fun i => take st (drop (i * st) l)) <$> seq 0 k) = l.
Proof.
  induction k as [|k IH]; intros l Hl; simpl.
  - destruct l; [done|simpl in Hl; lia].
  - rewrite <- fmap_S_seq, <- list_fmap_compose.
    rewrite (list_fmap_ext _ (fun i => take st (drop (i * st) (drop st l)))).
    + rewrite IH by (rewrite length_drop; lia). apply take_drop.
    + intros _ i _. unfold compose. rewrite drop_drop. f_equal.
Qed.

Lemma batches_concat {A} (l : list A) (batch_size : Z) :
  (1 <= batch_size)%Z ->
  exists chunks,
    batches l batch_size = Some chunks /\
    concat chunks = l /\
    Forall (fun c => length c <= Z.to_nat batch_size) chunks.
Proof.
  intros Hb. unfold batches. rewrite py_range_positive by done. simpl.
  eexists. split; [reflexivity|].
  rewrite <- list_fmap_compose. split.
  - rewrite (list_fmap_ext _ (fun i => take (Z.to_nat batch_size)
                                        (drop (i * Z.to_nat batch_size) l))).
    + apply chunks_concat, ceil_div_covers. lia.
    + intros _ i _. unfold slice, compose. f_equal. lia.
  - apply Forall_fmap, Forall_forall. intros i _. unfold slice. simpl.
    rewrite length_take. lia.
Qed.

Section GroupBy.
Context {A : Type} (key : A -> string).

Lemma group_by_step (d : list (string * list A)) x :
  (dict_set (key x) (default [] (dict_get (key x) d) ++ [x]) d ≫= snd)
    ≡ₚ (d ≫= snd) ++ [x] /\
  (Forall (fun g => Forall (fun y => key y = g.1) g.2) d ->
   Forall (fun g => Forall (fun y => key y = g.1) g.2)
     (dict_set (key x) (default [] (dict_get (key x) d) ++ [x]) d)).
Proof.
  induction d as [|[k v] d IH]; cbn [dict_set dict_get].
  - split; [done|]. intros _. by repeat constructor.
  - destruct (String.eqb_spec k (key x)) as [->|Hne]; cbn [default].
    + split.
      * rewrite !bind_cons. cbn [snd]. rewrite <- !app_assoc.
        apply Permutation_app_head, Permutation_app_comm.
      * intros [H1 H2]%Forall_cons. constructor; [|done]. cbn [fst snd] in *.
        apply Forall_app. split; [done|]. by repeat constructor.
    + destruct IH as [IH1 IH2]. split.
      * rewrite !bind_cons. cbn [snd]. rewrite IH1. by rewrite <- app_assoc.
      * intros [H1 H2]%Forall_cons. constructor; [done|]. by apply IH2.
Qed.

Lemma group_by_fold (l : list A) : forall d,
  let d' := foldl (fun groups x =>
              dict_set (key x) (default [] (dict_get (key x) groups) ++ [x]) groups)
              d l in
  (d' ≫= snd) ≡ₚ (d ≫= snd) ++ l /\
  (Forall (fun g => Forall (fun y => key y = g.1) g.2) d ->
   Forall (fun g => Forall (fun y => key y = g.1) g.2) d').
Proof.
  induction l as [|x l IH]; intros d; simpl.
  - by rewrite app_nil_r.
  - destruct (group_by_step d x) as [H1 H2].
    destruct (IH (dict_set (key x) (default [] (dict_get (key x) d) ++ [x]) d))
      as [H3 H4]. simpl in H3, H4. split.
    + rewrite H3, H1. by rewrite <- app_assoc.
    + auto.
Qed.

Lemma group_by_spec (l : list A) :
  (group_by key l ≫= snd) ≡ₚ l /\
  Forall (fun g => Forall (fun y => key y = g.1) g.2) (group_by key l).
Proof.
  destruct (group_by_fold l []) as [H1 H2]. split; [exact H1|].
  apply H2. constructor.
Qed.

End GroupBy.

Lemma filter_imap_snd_length {A B} (P : A -> Prop)
    (D1 : forall p : B * A, Decision (P p.2)) (D2 : forall x, Decision (P x))
    (l : list A) : forall g : nat -> A -> B * A,
  (forall i x, (g i x).2 = x) ->
  length (@filter _ _ _ (fun p : B * A => P p.2) D1 (imap g l)) =
  length (@filter _ _ _ P D2 l).
Proof.
  induction l as [|x l IH]; intros g Hg; [done|].
  cbn [imap]. rewrite !filter_cons.
  assert (IH' := IH (g ∘ S) (fun i y => Hg (S i) y)).
  destruct (decide (P (g 0 x).2)) as [Hp|Hp]; destruct (decide (P x)) as [Hq|Hq];
    rewrite Hg in Hp; try done; cbn [length]; by rewrite IH'.
Qed.

Lemma match_nodes_length ns id :
  length (match_nodes ns id) =
  length (filter (fun n => dict_get "entity_id" (node_properties n) = Some (PStr id)) ns).
Proof.
  unfold match_nodes. rewrite length_fmap.
  by apply (filter_imap_snd_length
              (fun n => dict_get "entity_id" (node_properties n) = Some (PStr id))).
Qed.

Lemma edges_of_Permutation ns1 ns2 r : ns1 ≡ₚ ns2 -> edges_of ns1 r = edges_of ns2 r.
Proof.
  intros Hp. unfold edges_of. rewrite !match_nodes_length. by rewrite Hp.
Qed.

Lemma length_bind_const {A B} (f : A -> list B) (l : list A) n :
  (forall x, length (f x) = n) -> length (l ≫= f) = length l * n.
Proof.
  intros Hf. induction l as [|x l IH]; [done|].
  rewrite bind_cons, length_app, Hf, IH. simpl. lia.
Qed.

Lemma length_bind_sum {A B} (f : A -> list B) (l : list A) :
  length (l ≫= f) = sum_list_with (fun x => length (f x)) l.
Proof.
  induction l as [|x l IH]; [done|].
  rewrite bind_cons, length_app, IH. done.
Qed.

Lemma create_nodes_fold (G : list (string * list SurveyEntity)) : forall s,
  Forall (fun g => Forall (fun e => entity_type e = g.1) g.2) G ->
  let s' := foldl (fun s (g : string * list SurveyEntity) =>
                     (run (CreateNodes g.1 (map entity_data_of g.2)) s).2) s G in
  nodes s' = nodes s ++ (entity_node <$> (G ≫= snd)) /\ edges s' = edges s.
Proof.
  induction G as [|g G IH]; intros s HG; cbn [foldl].
  - by rewrite app_nil_r.
  - apply Forall_cons in HG as [Hg HG].
    destruct (IH (run (CreateNodes g.1 (map entity_data_of g.2)) s).2 HG) as [Hn He].
    cbv zeta in Hn, He. cbv zeta. rewrite Hn, He. cbn [run snd nodes edges].
    split; [|done]. rewrite bind_cons, fmap_app, <- app_assoc. do 2 f_equal.
    clear -Hg. induction Hg as [|e es He _ IH]; [done|].
    cbn [map fmap list_fmap]. rewrite IH. f_equal.
    unfold entity_node. by rewrite He.
Qed.

Lemma create_entity_batch_effect s batch :
  nodes (create_entity_batch s batch) ≡ₚ nodes s ++ (entity_node <$> batch) /\
  edges (create_entity_batch s batch) = edges s.
Proof.
  destruct (group_by_spec entity_type batch) as [Hperm Hkeys].
  destruct (create_nodes_fold _ s Hkeys) as [Hn He].
  unfold create_entity_batch. cbv zeta in Hn, He. rewrite Hn, He.
  split; [|done]. by rewrite Hperm.
Qed.

Lemma create_entity_batches_effect chunks : forall s,
  nodes (foldl create_entity_batch s chunks)
    ≡ₚ nodes s ++ (entity_node <$> concat chunks) /\
  edges (foldl create_entity_batch s chunks) = edges s.
Proof.
  induction chunks as [|c chunks IH]; intros s; cbn [foldl concat].
  - by rewrite app_nil_r.
  - destruct (IH (create_entity_batch s c)) as [Hn He].
    destruct (create_entity_batch_effect s c) as [Hn' He'].
    rewrite Hn, He, Hn', He'. split; [|done].
    by rewrite fmap_app, <- app_assoc.
Qed.

Lemma created_edges_count ns t (rs : list SurveyRelationship) :
  sum_list_with
    (fun rel => length
       (src ← match_nodes ns (rd_source_id rel);
        tgt ← match_nodes ns (rd_target_id rel);
        [mkEdge src tgt t (rd_properties rel)]))
    (map rel_data_of rs)
  = sum_list_with (edges_of ns) rs.
Proof.
  induction rs as [|r rs IH]; [done|]. cbn [map sum_list_with].
  rewrite IH. f_equal. unfold edges_of. cbn [rel_data_of rd_source_id rd_target_id].
  rewrite (length_bind_const _ _ (length (match_nodes ns (target_id r)))); [done|].
  intros src. rewrite (length_bind_const _ _ 1); [lia|done].
Qed.

Lemma create_relationships_fold (G : list (string * list SurveyRelationship)) :
  forall s,
  let s' := foldl (fun s (g : string * list SurveyRelationship) =>
                     (run (CreateRelationships g.1 (map rel_data_of g.2)) s).2) s G in
  nodes s' = nodes s /\
  length (edges s') =
    length (edges s) + sum_list_with (edges_of (nodes s)) (G ≫= snd).
Proof.
  induction G as [|g G IH]; intros s; cbn [foldl].
  - simpl. split; [done|lia].
  - destruct (IH (run (CreateRelationships g.1 (map rel_data_of g.2)) s).2) as [Hn He].
    cbv zeta in Hn, He. cbv zeta. rewrite Hn, He. cbn [run snd nodes edges].
    split; [done|]. rewrite bind_cons, sum_list_with_app, length_app.
    rewrite length_bind_sum.
    rewrite created_edges_count. lia.
Qed.

Lemma create_relationship_batch_effect s batch :
  nodes (create_relationship_batch s batch) = nodes s /\
  length (edges (create_relationship_batch s batch)) =
    length (edges s) + sum_list_with (edges_of (nodes s)) batch.
Proof.
  destruct (group_by_spec relationship_type batch) as [Hperm _].
  destruct (create_relationships_fold (group_by relationship_type batch) s) as [Hn He].
  unfold create_relationship_batch. cbv zeta in Hn, He. rewrite Hn, He.
  split; [done|]. by rewrite Hperm.
Qed.

Lemma create_relationship_batches_effect chunks : forall s,
  nodes (foldl create_relationship_batch s chunks) = nodes s /\
  length (edges (foldl create_relationship_batch s chunks)) =
    length (edges s) + sum_list_with (edges_of (nodes s)) (concat chunks).
Proof.
  induction chunks as [|c chunks IH]; intros s; cbn [foldl concat].
  - simpl. split; [done|lia].
  - destruct (IH (create_relationship_batch s c)) as [Hn He].
    destruct (create_relationship_batch_effect s c) as [Hn' He'].
    rewrite Hn, He, Hn', He', sum_list_with_app. split; [done|lia].
Qed.

Lemma edge_count_Permutation ns1 ns2 (rels : list SurveyRelationship) :
  ns1 ≡ₚ ns2 ->
  sum_list_with (edges_of ns1) rels = sum_list_with (edges_of ns2) rels.
Proof.
  intros Hp. induction rels as [|r rels IH]; [done|].
  cbn [sum_list_with]. rewrite IH. f_equal. by apply edges_of_Permutation.
Qed.



(** ** The example of the specification, and the theorems at it *)

(** Three respondents, two response entities (rows 1 and 3), one question,
    one survey with three respondents; two response relationships and three
    HAS_RESPONDENT relationships; no orphan. *)
Example scenario_result :
  entity_type <$> entities Scenario.kg =
    ["Respondent"; "Respondent"; "Respondent"; "Opinions"; "Opinions";
     "Question"; "Survey"] /\
  relationship_type <$> relationships Scenario.kg =
    ["OPINIONS"; "OPINIONS"; "HAS_RESPONDENT"; "HAS_RESPONDENT"; "HAS_RESPONDENT"] /\
  (validate_entity_relationships Scenario.kg).1 = mkValidation 5 5 [] true.
Proof. vm_compute. repeat split; reflexivity. Qed.

(** Under another clock the IDs change and the structure does not. *)
Example ids_differ_structure_same :
  let kg' := build_knowledge_graph Scenario.ont Scenario.clock_later new_builder
               Scenario.df in
  head (entity_id <$> entities Scenario.kg) = Some "00000120250314092653" /\
  head (entity_id <$> entities kg') = Some "00000120250314092710" /\
  entity_type <$> entities kg' = entity_type <$> entities Scenario.kg /\
  relationship_type <$> relationships kg' =
    relationship_type <$> relationships Scenario.kg.
Proof. vm_compute. repeat split; reflexivity. Qed.

(** A builder used for a second run keeps what the first run produced:
    the counter and the mapping are reset, the accumulated entities and
    relationships are not. *)
Example second_run_accumulates :
  let run2 := build_knowledge_graph Scenario.ont Scenario.clock Scenario.kg Scenario.df in
  length (entities Scenario.kg) = 7 /\ length (entities run2) = 14 /\
  length (relationships Scenario.kg) = 5 /\ length (relationships run2) = 10.
Proof. vm_compute. repeat split; reflexivity. Qed.


Lemma validate_entity_relationships_spec_witness :
  validation_passed (validate_entity_relationships Scenario.kg).1 = true.
Proof.
  apply (proj1 (proj2 (proj2 (validate_entity_relationships_spec Scenario.kg)))).
  intros rel Hrel.
  assert (Hb : bool_decide (Forall (fun rel =>
            source_id rel ∈ (entity_id <$> entities Scenario.kg) /\
            target_id rel ∈ (entity_id <$> entities Scenario.kg))
            (relationships Scenario.kg)) = true) by (vm_compute; reflexivity).
  apply bool_decide_eq_true_1 in Hb. rewrite Forall_forall in Hb.
  destruct (Hb rel Hrel) as [Hs Ht].
  apply list_elem_of_fmap in Hs as (e1 & Hs & He1).
  apply list_elem_of_fmap in Ht as (e2 & Ht & He2).
  split; [exists e1|exists e2]; done.
Defined.


Lemma extraction_referentially_closed_witness :
  resolved (entities Scenario.kg)
    (mkRelationship "survey_poll_a" "00000220250314092653" "HAS_RESPONDENT"
                    (Some [("survey_project", PStr "Poll A")])).
Proof.
  apply (proj1 (extraction_referentially_closed Scenario.ont Scenario.clock Scenario.df)).
  apply (bool_decide_unpack _). vm_compute. reflexivity.
Defined.


Example load_scenario :
  let loaded :=
    create_entities_batch Scenario.empty_store (entities Scenario.kg) (Some 2%Z)
      ≫= fun s1 => create_relationships_batch s1 (relationships Scenario.kg) None in
  (fun s => (length (nodes s), length (edges s))) <$> loaded = Some (7, 5).
Proof. vm_compute. reflexivity. Qed.

(** * Properties of the further parts *)

(** ** The stripped-string accessor *)


(** ** Dictionaries *)

Lemma dict_get_set {V} (k k' : string) (v : V) (d : list (string * V)) :
  dict_get k' (dict_set k v d) = if String.eqb k k' then Some v else dict_get k' d.
Proof.
  induction d as [|[k0 v0] d IH]; cbn [dict_set dict_get].
  - destruct (String.eqb_spec k k'); done.
  - destruct (String.eqb_spec k0 k) as [->|Hne]; cbn [dict_get].
    + destruct (String.eqb_spec k k'); done.
    + destruct (String.eqb_spec k0 k') as [->|Hne'].
      * destruct (String.eqb_spec k k'); [congruence|done].
      * exact IH.
Qed.


Lemma dict_get_Some_elem {V} (k : string) (v : V) (d : list (string * V)) :
  dict_get k d = Some v -> (k, v) ∈ d.
Proof.
  induction d as [|[k0 v0] d IH]; cbn [dict_get]; [done|].
  destruct (String.eqb_spec k0 k) as [->|Hne].
  - intros [= ->]. apply list_elem_of_here.
  - intros H. apply list_elem_of_further. auto.
Qed.

Lemma dict_set_keys {V} (k : string) (v : V) (d : list (string * V)) :
  (dict_set k v d).*1 = if bool_decide (k ∈ d.*1) then d.*1 else d.*1 ++ [k].
Proof.
  induction d as [|[k0 v0] d IH]; cbn [dict_set fmap list_fmap fst].
  - by rewrite bool_decide_eq_false_2 by apply not_elem_of_nil.
  - destruct (String.eqb_spec k0 k) as [->|Hne]; cbn [fmap list_fmap fst].
    + rewrite bool_decide_eq_true_2 by apply list_elem_of_here. done.
    + fold (@fmap list _ _ _ fst d). fold (@fmap list _ _ _ fst (dict_set k v d)).
      rewrite IH. case_bool_decide as Hin.
      * rewrite bool_decide_eq_true_2 by (by apply list_elem_of_further). done.
      * rewrite bool_decide_eq_false_2; [done|].
        rewrite not_elem_of_cons. split; congruence.
Qed.

Lemma dict_set_NoDup {V} (k : string) (v : V) (d : list (string * V)) :
  NoDup d.*1 -> NoDup (dict_set k v d).*1.
Proof.
  intros Hd. rewrite dict_set_keys. case_bool_decide as Hin; [done|].
  apply NoDup_app. split; [done|]. split; [|apply NoDup_singleton].
  intros x Hx ->%list_elem_of_singleton. done.
Qed.

(** ** The statistics of a builder *)

Section CountBy.
Context {A : Type} (key : A -> string).

Lemma count_step_sum (k : string) (d : list (string * nat)) :
  sum_list (dict_set k (default 0 (dict_get k d) + 1) d).*2 = sum_list d.*2 + 1.
Proof.
  assert (H : forall n, default 0 (dict_get k d) = n ->
            sum_list (dict_set k (n + 1) d).*2 = sum_list d.*2 + 1); [|by apply H].
  induction d as [|[k0 v0] d IH]; intros n; cbn [dict_set dict_get].
  - simpl. intros <-. lia.
  - destruct (String.eqb_spec k0 k) as [->|Hne]; simpl.
    + intros <-. lia.
    + intros Hn. apply IH in Hn. unfold fmap in Hn |- *. lia.
Qed.

Lemma count_by_fold (l : list A) : forall d,
  NoDup d.*1 -> Forall (fun kv => 0 < kv.2) d ->
  let d' := foldl (fun counts x =>
              dict_set (key x) (default 0 (dict_get (key x) counts) + 1) counts)
              d l in
  NoDup d'.*1 /\ Forall (fun kv => 0 < kv.2) d' /\
  sum_list d'.*2 = sum_list d.*2 + length l /\
  forall k, default 0 (dict_get k d') =
            default 0 (dict_get k d) + length (filter (fun x => key x = k) l).
Proof.
  induction l as [|x l IH]; intros d Hnd Hpos; cbn [foldl].
  - simpl. split; [done|]. split; [done|]. split; [lia|]. intros k. lia.
  - set (d1 := dict_set (key x) (default 0 (dict_get (key x) d) + 1) d).
    destruct (IH d1) as (H1 & H2 & H3 & H4).
    { by apply dict_set_NoDup. }
    { apply (dict_set_values (fun n => 0 < n)); [lia|done]. }
    cbv zeta in H1, H2, H3, H4. split; [done|]. split; [done|]. split.
    + rewrite H3. unfold d1. rewrite count_step_sum. simpl. lia.
    + intros k. rewrite H4. unfold d1. rewrite dict_get_set.
      rewrite filter_cons. destruct (String.eqb_spec (key x) k) as [Hk|Hk].
      * rewrite decide_True by done. rewrite Hk. simpl. lia.
      * rewrite decide_False by done. lia.
Qed.

Lemma count_by_spec (l : list A) :
  NoDup (count_by key l).*1 /\
  sum_list (count_by key l).*2 = length l /\
  forall k n, dict_get k (count_by key l) = Some n <->
              0 < n /\ n = length (filter (fun x => key x = k) l).
Proof.
  destruct (count_by_fold l []) as (H1 & H2 & H3 & H4);
    [constructor|constructor|]. cbv zeta in *. fold (count_by key l) in *.
  split; [done|]. split; [done|]. intros k n. specialize (H4 k).
  simpl in H4. destruct (dict_get k (count_by key l)) as [n'|] eqn:E; simpl in H4.
  - apply dict_get_Some_elem in E. rewrite Forall_forall in H2.
    apply H2 in E. simpl in E. split.
    + intros [= <-]. split; [done|lia].
    + intros [_ ->]. by rewrite H4.
  - split; [done|]. intros [? ->]. lia.
Qed.

End CountBy.

(** X2.  The counts [get_statistics] reports are consistent: each
    dictionary has one entry per type that occurs, holding the number of
    entities (relationships) of that type, the entries add up to the
    totals, the totals are the lengths of the two lists, and the entities
    with text are at most all of them.  The text percentage is 0 for a
    builder without entities and otherwise a ratio with a non-zero
    denominator. *)
Theorem get_statistics_counts (schema_summary : list (string * pvalue))
    (b : SurveyKGBuilder) :
  let st := get_statistics schema_summary b in
  total_entities st = length (entities b) /\
  stats_total_relationships st = length (relationships b) /\
  NoDup (entity_type_counts st).*1 /\
  NoDup (relationship_type_counts st).*1 /\
  sum_list (entity_type_counts st).*2 = total_entities st /\
  sum_list (relationship_type_counts st).*2 = stats_total_relationships st /\
  (forall t n, dict_get t (entity_type_counts st) = Some n <->
     0 < n /\ n = length (filter (fun e => entity_type e = t) (entities b))) /\
  (forall t n, dict_get t (relationship_type_counts st) = Some n <->
     0 < n /\
     n = length (filter (fun r => relationship_type r = t) (relationships b))) /\
  entities_with_text_content st <= total_entities st /\
  (entities b = [] -> text_content_percentage st = PInt 0) /\
  (entities b <> [] ->
     text_content_percentage st =
       PPercent (entities_with_text_content st) (total_entities st) /\
     0 < total_entities st).
Proof.
  intros st. unfold st, get_statistics. cbn.
  destruct (count_by_spec entity_type (entities b)) as (E1 & E2 & E3).
  destruct (count_by_spec relationship_type (relationships b)) as (R1 & R2 & R3).
  split; [done|]. split; [done|]. split; [done|]. split; [done|].
  split; [done|]. split; [done|]. split; [exact E3|]. split; [exact R3|].
  split; [apply length_filter|].
  destruct (entities b) as [|e es]; [done|]. split; [done|]. intros _.
  split; [done|]. simpl. lia.
Qed.

(** ** Text content *)

Lemma foldl_preserves {S A} (P : S -> Prop) (step : S -> A -> S) (l : list A) :
  (forall s x, P s -> P (step s x)) -> forall s, P s -> P (foldl step s l).
Proof. intros Hstep. induction l as [|x l IH]; simpl; auto. Qed.

Lemma filter_Forall_id {A} (P : A -> Prop) `{!forall x, Decision (P x)} (l : list A) :
  Forall P l -> filter P l = l.
Proof.
  induction 1 as [|x l Hx _ IH]; [done|].
  rewrite filter_cons, decide_True by done. by rewrite IH.
Qed.

Lemma append_nonempty_r s t : t <> "" -> s +:+ t <> "".
Proof. destruct s; simpl; [done|discriminate]. Qed.

Lemma join_nonempty sep p ps : p <> "" -> join sep (p :: ps) <> "".
Proof.
  intros Hp. destruct ps as [|q ps]; cbn [join]; [done|].
  destruct p; [done|]. discriminate.
Qed.

Lemma all_have_text_add e b :
  has_text e = true -> all_have_text b -> all_have_text (add_entity e b).
Proof.
  unfold all_have_text. cbn [add_entity entities]. intros He Hb.
  apply Forall_app. split; [done|]. by constructor.
Qed.

Lemma respondent_step_text now b ir :
  all_have_text b -> all_have_text (respondent_step now b ir).
Proof.
  intros Hb. destruct ir as [idx row]. unfold respondent_step, read_clock.
  destruct (_safe_convert_value (row_get row "YEARRAW")) as [y|];
    [destruct (String.eqb y "")|]; apply all_have_text_add; done.
Qed.

Lemma response_step_text ontology now rid row b cat :
  all_have_text b -> all_have_text (response_step ontology now rid row b cat).
Proof.
  intros Hb. destruct cat as [rel_type field_set]. unfold response_step.
  destruct (non_null (collect_responses ontology row field_set)) as [|r rs]; [done|].
  unfold read_clock. unfold all_have_text. cbn [add_relationship tick entities].
  apply all_have_text_add; [|done]. unfold has_text. cbn [text_content].
  apply negb_true_iff, String.eqb_neq. unfold _create_category_text_content.
  apply join_nonempty. apply append_nonempty_r. discriminate.
Qed.

Lemma response_row_step_text ontology now b ir :
  all_have_text b -> all_have_text (response_row_step ontology now b ir).
Proof.
  intros Hb. destruct ir as [idx row]. unfold response_row_step.
  destruct (respondent_id_mapping b !! idx) as [rid|]; [|done].
  destruct (String.eqb rid ""); [done|].
  apply foldl_preserves; [|done]. intros. by apply response_step_text.
Qed.

Lemma question_step_text ontology df st column :
  all_have_text st.1 -> all_have_text (question_step ontology df st column).1.
Proof.
  destruct st as [b processed]. unfold question_step. intros Hb.
  case_bool_decide; [|done]. case_bool_decide; [done|].
  cbn [fst]. by apply all_have_text_add.
Qed.

Lemma has_respondent_step_entities p safe b ir :
  entities (has_respondent_step p safe b ir) = entities b.
Proof.
  unfold has_respondent_step. destruct (respondent_id_mapping b !! ir.1) as [rid|]; [|done].
  by destruct (String.eqb rid "").
Qed.

Lemma survey_step_text df b p :
  all_have_text b -> all_have_text (survey_step df b p).
Proof.
  intros Hb. unfold survey_step. cbv zeta.
  apply foldl_preserves; [|by apply all_have_text_add].
  intros b1 ir H1. unfold all_have_text. by rewrite has_respondent_step_entities.
Qed.

Lemma build_knowledge_graph_text ontology now b df :
  all_have_text b -> all_have_text (build_knowledge_graph ontology now b df).
Proof.
  intros Hb. unfold build_knowledge_graph, extract_survey_metadata,
    extract_question_entities, extract_response_entities,
    extract_respondent_entities.
  assert (H1 : all_have_text
            (foldl (respondent_step now)
               (set_mapping ∅ (set_mapping ∅ (set_counter 1 b))) (iterrows df))).
  { apply foldl_preserves; [|done]. intros. by apply respondent_step_text. }
  assert (H2 := foldl_preserves all_have_text (response_row_step ontology now)
                  (iterrows df)
                  (fun s x H => response_row_step_text ontology now s x H) _ H1).
  assert (H3 := foldl_preserves (fun st => all_have_text st.1)
                  (question_step ontology df) (columns df)
                  (fun s x H => question_step_text ontology df s x H) (_, ∅) H2).
  case_bool_decide; [|exact H3].
  apply foldl_preserves; [|exact H3]. intros. by apply survey_step_text.
Qed.

(** X3.  Every entity an extraction run adds carries a non-empty text: if
    the builder's entities all had text before the run, [get_statistics]
    afterwards counts every entity as one with text content. *)
Theorem run_entities_have_text (ontology : Ontology) (now : nat -> datetime)
    (schema_summary : list (string * pvalue)) (b : SurveyKGBuilder) (df : DataFrame) :
  Forall (fun e => has_text e = true) (entities b) ->
  let b' := build_knowledge_graph ontology now b df in
  let st := get_statistics schema_summary b' in
  Forall (fun e => exists s, text_content e = Some s /\ s <> "") (entities b') /\
  entities_with_text_content st = total_entities st.
Proof.
  intros Hb b' st.
  assert (H : all_have_text b') by (by apply build_knowledge_graph_text).
  unfold all_have_text in H. split.
  - eapply Forall_impl; [exact H|]. intros e He. unfold has_text in He.
    destruct (text_content e) as [s|]; [|done]. exists s. split; [done|].
    by apply negb_true_iff, String.eqb_neq in He.
  - unfold st, get_statistics. cbn. f_equal.
    by apply filter_Forall_id.
Qed.

Lemma run_entities_have_text_witness :
  let b' := build_knowledge_graph Scenario.ont Scenario.clock new_builder Scenario.df in
  Forall (fun e => exists s, text_content e = Some s /\ s <> "") (entities b') /\
  entities_with_text_content (get_statistics [] b') = total_entities (get_statistics [] b').
Proof.
  apply (run_entities_have_text Scenario.ont Scenario.clock [] new_builder Scenario.df).
  constructor.
Defined.

(** ** Question entities *)




(** ** Survey metadata *)

Lemma unique_NoDup {A} `{EqDecision A} (l : list A) : NoDup (unique l).
Proof. unfold unique. rewrite reverse_Permutation. apply NoDup_remove_dups. Qed.

Lemma elem_of_unique {A} `{EqDecision A} (l : list A) x : x ∈ unique l <-> x ∈ l.
Proof.
  unfold unique. by rewrite elem_of_reverse, elem_of_remove_dups, elem_of_reverse.
Qed.

Lemma sum_list_with_plus {A} (f g : A -> nat) (l : list A) :
  sum_list_with (fun x => f x + g x) l = sum_list_with f l + sum_list_with g l.
Proof. induction l as [|x l IH]; simpl; lia. Qed.

Lemma sum_list_with_ext_elem {A} (f g : A -> nat) (l : list A) :
  (forall x, x ∈ l -> f x = g x) -> sum_list_with f l = sum_list_with g l.
Proof.
  induction l as [|x l IH]; intros H; simpl; [done|].
  rewrite (H x) by apply list_elem_of_here. rewrite IH; [done|].
  intros y Hy. apply H. by apply list_elem_of_further.
Qed.

Lemma sum_list_with_fmap {A B} (f : B -> nat) (g : A -> B) (l : list A) :
  sum_list_with f (g <$> l) = sum_list_with (fun x => f (g x)) l.
Proof. induction l as [|x l IH]; simpl; [done|]. by rewrite <- IH. Qed.

Lemma sum_indicator {A} `{EqDecision A} (K : list A) (v : A) :
  NoDup K -> v ∈ K ->
  sum_list_with (fun u => if decide (v = u) then 1 else 0) K = 1.
Proof.
  induction 1 as [|u K Hu Hnd IH]; intros Hv; [by apply elem_of_nil in Hv|].
  simpl. destruct (decide (v = u)) as [->|Hne].
  - rewrite (sum_list_with_ext_elem _ (fun _ => 0)).
    + clear. induction K; simpl; lia.
    + intros x Hx. destruct (decide (u = x)) as [->|]; [done|done].
  - apply elem_of_cons in Hv as [?|Hv]; [done|]. by rewrite IH.
Qed.

(** Counting a list by the values of a duplicate-free list that covers
    it counts every item once. *)
Lemma count_partition {A} `{EqDecision A} (K L : list A) :
  NoDup K -> (forall v, v ∈ L -> v ∈ K) ->
  sum_list_with (fun u => length (filter (fun v => v = u) L)) K = length L.
Proof.
  intros Hnd. induction L as [|v L IH]; intros Hcov.
  - simpl. clear. induction K; simpl; lia.
  - rewrite (sum_list_with_ext_elem _
      (fun u => (if decide (v = u) then 1 else 0) +
                length (filter (fun v => v = u) L))).
    + rewrite sum_list_with_plus, sum_indicator, IH; [done| |done|].
      * intros w Hw. apply Hcov. by apply list_elem_of_further.
      * apply Hcov, list_elem_of_here.
    + intros u _. rewrite filter_cons. by destruct (decide (v = u)).
Qed.

Lemma length_filter_fmap {A B} (P : A -> Prop) (Q : B -> Prop)
    `{!forall x, Decision (P x)} `{!forall y, Decision (Q y)} (f : A -> B) (l : list A) :
  (forall x, P x <-> Q (f x)) ->
  length (filter P l) = length (filter Q (f <$> l)).
Proof.
  intros Hiff. induction l as [|x l IH]; [done|].
  rewrite fmap_cons, !filter_cons.
  destruct (decide (P x)) as [Hp|Hp]; destruct (decide (Q (f x))) as [Hq|Hq];
    try (by apply Hiff in Hp); try (by apply Hiff in Hq); simpl; by rewrite IH.
Qed.

Lemma column_values_iterrows df col :
  column_values df col = (fun ir : nat * Series => row_get ir.2 col) <$> iterrows df.
Proof.
  unfold column_values, iterrows. rewrite fmap_imap.
  change (map ?f ?l) with (f <$> l). rewrite <- imap_const.
  apply imap_ext. intros i cs _. reflexivity.
Qed.

Lemma cell_is_spec p v : cell_is p v = true <-> v = VStr p.
Proof.
  destruct v; simpl; try (split; [done|discriminate]).
  rewrite String.eqb_eq. split; [by intros ->|by intros [= ->]].
Qed.

Lemma project_rows_length df p :
  length (project_rows df p) =
  length (filter (fun v => v = VStr p) (column_values df "PROJECT_NAME")).
Proof.
  unfold project_rows. rewrite column_values_iterrows.
  apply (length_filter_fmap _ (fun v => v = VStr p)).
  intros ir. apply cell_is_spec.
Qed.

Lemma filter_non_null_count (u : value) (l : list value) :
  isna u = false ->
  length (filter (fun v => v = u) (filter (fun v => isna v = false) l)) =
  length (filter (fun v => v = u) l).
Proof.
  intros Hu. induction l as [|v l IH]; [done|].
  rewrite (filter_cons (fun v => isna v = false)).
  destruct (decide (isna v = false)) as [Hv|Hv].
  - rewrite !filter_cons. destruct (decide (v = u)); simpl; by rewrite IH.
  - rewrite filter_cons. rewrite decide_False by congruence. exact IH.
Qed.

Lemma iterrows_elem_label df ir :
  ir ∈ iterrows df -> ir.1 < length (data df) /\ index ir.2 = columns df.
Proof.
  intros [i Hi]%list_elem_of_lookup. assert (Hi' := Hi).
  apply iterrows_lookup in Hi as (cs & Hcs & ->). simpl.
  split; [|done]. by apply lookup_lt_Some in Hcs.
Qed.

Lemma length_bind_ones {A B} (f : A -> list B) (l : list A) :
  (forall x, x ∈ l -> length (f x) = 1) -> length (l ≫= f) = length l.
Proof.
  intros H. rewrite length_bind_sum.
  rewrite (sum_list_with_ext_elem _ (fun _ => 1)) by exact H.
  clear. induction l; simpl; lia.
Qed.

Lemma survey_rel_keys_length m df p :
  mapping_covers m df ->
  length (survey_rel_keys m df p) = length (project_rows df p).
Proof.
  intros Hm. unfold survey_rel_keys. apply length_bind_ones.
  intros ir Hir. apply project_rows_iterrows, iterrows_elem_label in Hir as [Hlt _].
  destruct (Hm _ Hlt) as [rid Hrid]. unfold has_respondent_keys. by rewrite Hrid.
Qed.

(** The rows the survey phase attaches to some project. *)
Lemma attached_rows_string_labels df :
  Forall (fun v => isna v = true \/ exists s, v = VStr s)
         (column_values df "PROJECT_NAME") ->
  sum_list_with (fun p => length (project_rows df p)) (project_names df) =
  length (labelled_rows df).
Proof.
  intros Hstr. unfold project_names. change (map ?f ?l) with (f <$> l).
  rewrite sum_list_with_fmap. fold (labelled_rows df).
  rewrite <- (count_partition (unique (labelled_rows df)) (labelled_rows df)).
  - apply sum_list_with_ext_elem. intros u Hu. rewrite elem_of_unique in Hu.
    unfold labelled_rows in Hu. apply list_elem_of_filter in Hu as [Hna Hu].
    rewrite Forall_forall in Hstr. destruct (Hstr _ Hu) as [?|[s ->]]; [congruence|].
    simpl. rewrite project_rows_length. unfold labelled_rows.
    by rewrite filter_non_null_count.
  - apply unique_NoDup.
  - intros v Hv. by apply elem_of_unique.
Qed.

(** X5.  On a table whose project labels are strings, and with every row
    mapped to a respondent, [extract_survey_metadata] adds one entity per
    distinct label and one [HAS_RESPONDENT] relationship per labelled row. *)
Theorem extract_survey_metadata_counts (b : SurveyKGBuilder) (df : DataFrame) :
  mapping_covers (respondent_id_mapping b) df ->
  Forall (fun v => isna v = true \/ exists s, v = VStr s)
         (column_values df "PROJECT_NAME") ->
  let b' := extract_survey_metadata b df in
  length (entities b') = length (entities b) + length (unique (labelled_rows df)) /\
  length (relationships b') = length (relationships b) + length (labelled_rows df).
Proof.
  intros Hm Hstr b'.
  destruct (extract_survey_metadata_extends b df) as (_ & _ & He & Hr).
  fold b' in He, Hr. apply (f_equal length) in He, Hr.
  rewrite length_app, !length_fmap in He. rewrite length_app, !length_fmap in Hr.
  split.
  - rewrite He. unfold project_names, labelled_rows. by rewrite length_map.
  - rewrite Hr. f_equal. rewrite length_bind_sum.
    rewrite <- attached_rows_string_labels by done.
    apply sum_list_with_ext_elem. intros p _. by apply survey_rel_keys_length.
Qed.

Lemma extract_survey_metadata_counts_witness :
  let b := extract_respondent_entities Scenario.clock new_builder Scenario.df in
  let b' := extract_survey_metadata b Scenario.df in
  length (entities b') = length (entities b) + 1 /\
  length (relationships b') = length (relationships b) + 3.
Proof.
  intros b b'. apply (extract_survey_metadata_counts b Scenario.df).
  - intros i Hi. destruct i as [|[|[|i]]];
      [eexists; vm_compute; reflexivity..|simpl in Hi; lia].
  - change (column_values Scenario.df "PROJECT_NAME")
      with [VStr "Poll A"; VStr "Poll A"; VStr "Poll A"].
    repeat (apply Forall_cons_2; [right; eexists; reflexivity|]). apply Forall_nil_2.
Defined.

Lemma foldl_preserves_elem {S A} (P : S -> Prop) (step : S -> A -> S) (l : list A) :
  (forall s x, x ∈ l -> P s -> P (step s x)) -> forall s, P s -> P (foldl step s l).
Proof.
  induction l as [|x l IH]; intros Hstep s Hs; simpl; [done|].
  apply IH.
  - intros s' y Hy. apply Hstep. by apply list_elem_of_further.
  - apply Hstep; [apply list_elem_of_here|done].
Qed.

Lemma has_respondent_step_unmapped p safe b ir :
  mapped (respondent_id_mapping b) ir.1 = None -> has_respondent_step p safe b ir = b.
Proof.
  unfold mapped, has_respondent_step.
  destruct (respondent_id_mapping b !! ir.1) as [rid|]; [|done].
  by destruct (String.eqb rid "").
Qed.

Lemma has_respondent_step_mapping p safe b ir :
  respondent_id_mapping (has_respondent_step p safe b ir) = respondent_id_mapping b.
Proof.
  unfold has_respondent_step.
  destruct (respondent_id_mapping b !! ir.1) as [rid|]; [|done].
  by destruct (String.eqb rid "").
Qed.

(** What [survey_step] does to the entities: it appends one entity, of
    these properties. *)
Lemma survey_step_entity df b p :
  exists e year_value,
    entities (survey_step df b p) = entities b ++ [e] /\
    entity_type e = "Survey" /\
    entity_id e = "survey_" +:+ safe_project_name p /\
    properties e =
      [("project_name", PStr p);
       ("total_respondents", PInt (Z.of_nat (length (project_rows df p))));
       ("survey_year", PStr year_value);
       ("completion_rate", PPercent (length (project_rows df p)) (length (data df)));
       ("data_quality_score",
        _calculate_data_quality_score (length (columns df)) (project_rows df p))].
Proof.
  unfold survey_step. cbv zeta. eexists _, _. split; [|split; [|split]].
  - match goal with |- entities (foldl ?step ?b0 ?l) = _ =>
      apply (foldl_preserves (fun b1 => entities b1 = entities b0) step l) end.
    + intros b1 ir H1. by rewrite has_respondent_step_entities.
    + reflexivity.
  - reflexivity.
  - reflexivity.
  - reflexivity.
Qed.

Lemma survey_step_unattached df b p :
  (forall ir, ir ∈ project_rows df p ->
     mapped (respondent_id_mapping b) ir.1 = None) ->
  relationships (survey_step df b p) = relationships b /\
  respondent_id_mapping (survey_step df b p) = respondent_id_mapping b.
Proof.
  intros Hun. unfold survey_step. cbv zeta.
  match goal with |- context [foldl ?step ?b0 ?l] =>
    apply (foldl_preserves_elem
             (fun b1 => relationships b1 = relationships b /\
                        respondent_id_mapping b1 = respondent_id_mapping b)
             step l) end.
  - intros b1 ir Hir [H1 H2]. rewrite has_respondent_step_unmapped; [done|].
    rewrite H2. by apply Hun.
  - done.
Qed.

Lemma extract_survey_metadata_unattached b df :
  (forall p ir, p ∈ project_names df -> ir ∈ project_rows df p ->
     mapped (respondent_id_mapping b) ir.1 = None) ->
  relationships (extract_survey_metadata b df) = relationships b.
Proof.
  intros Hun. unfold extract_survey_metadata. case_bool_decide; [|done].
  apply (foldl_preserves_elem
           (fun b1 => relationships b1 = relationships b /\
                      respondent_id_mapping b1 = respondent_id_mapping b)
           (survey_step df) (project_names df)); [|done].
  intros b1 p Hp [H1 H2].
  destruct (survey_step_unattached df b1 p) as [H3 H4].
  - intros ir Hir. rewrite H2. by apply (Hun p).
  - split; congruence.
Qed.




Lemma project_rows_no_string df p :
  Forall (fun v => forall s, v <> VStr s) (column_values df "PROJECT_NAME") ->
  project_rows df p = [].
Proof.
  intros Hno. apply length_zero_iff_nil. rewrite project_rows_length.
  apply length_zero_iff_nil. induction Hno as [|v l Hv _ IH]; [done|].
  rewrite filter_cons. rewrite decide_False by apply Hv. exact IH.
Qed.

(** X7.  On a table whose project labels are not strings (a column of
    integers), the rows of no project are found: every label still gets
    its [Survey] entity, but with [total_respondents] 0, and no
    [HAS_RESPONDENT] relationship is created. *)
Theorem extract_survey_metadata_numeric_labels (b : SurveyKGBuilder) (df : DataFrame) :
  Forall (fun v => forall s, v <> VStr s) (column_values df "PROJECT_NAME") ->
  let b' := extract_survey_metadata b df in
  relationships b' = relationships b /\
  exists es,
    entities b' = entities b ++ es /\
    length es = length (unique (labelled_rows df)) /\
    Forall (fun e => entity_type e = "Survey" /\
                     dict_get "total_respondents" (properties e) = Some (PInt 0)) es.
Proof.
  intros Hno b'. split.
  - apply extract_survey_metadata_unattached. intros p ir _ Hir.
    rewrite project_rows_no_string in Hir by done. by apply elem_of_nil in Hir.
  - assert (H : exists es, entities b' = entities b ++ es /\
              Forall (fun e => entity_type e = "Survey" /\
                dict_get "total_respondents" (properties e) = Some (PInt 0)) es).
    { unfold b', extract_survey_metadata. case_bool_decide.
      2:{ exists []. by rewrite app_nil_r. }
      apply (foldl_preserves
               (fun b1 => exists es, entities b1 = entities b ++ es /\
                  Forall (fun e => entity_type e = "Survey" /\
                    dict_get "total_respondents" (properties e) = Some (PInt 0)) es)).
      - intros b1 p (es & H1 & H2).
        destruct (survey_step_entity df b1 p) as (e & y & H3 & H4 & _ & H5).
        exists (es ++ [e]). split.
        + by rewrite H3, H1, <- app_assoc.
        + apply Forall_app. split; [done|]. constructor; [|done]. split; [done|].
          rewrite H5. rewrite project_rows_no_string by done. reflexivity.
      - exists []. by rewrite app_nil_r. }
    destruct H as (es & H1 & H2). exists es. split; [done|]. split; [|done].
    destruct (extract_survey_metadata_extends b df) as (_ & _ & He & _).
    fold b' in He. apply (f_equal length) in He.
    rewrite length_app, !length_fmap in He. rewrite H1, length_app in He.
    unfold project_names in He. rewrite length_map in He. unfold labelled_rows. lia.
Qed.

Lemma extract_survey_metadata_numeric_labels_witness :
  let b := extract_respondent_entities Scenario.clock new_builder IntLabels.df in
  let b' := extract_survey_metadata b IntLabels.df in
  relationships b' = relationships b /\
  exists es,
    entities b' = entities b ++ es /\
    length es = 1 /\
    Forall (fun e => entity_type e = "Survey" /\
                     dict_get "total_respondents" (properties e) = Some (PInt 0)) es.
Proof.
  intros b b'. apply (extract_survey_metadata_numeric_labels b IntLabels.df).
  change (column_values IntLabels.df "PROJECT_NAME") with [VInt 2024; VInt 2024].
  repeat (apply Forall_cons_2; [discriminate|]). apply Forall_nil_2.
Defined.

Lemma non_null_cells_le (n : nat) (rows : list (nat * Series)) :
  Forall (fun ir : nat * Series => length (index ir.2) = n) rows ->
  non_null_cells rows <= length rows * n.
Proof.
  unfold non_null_cells. induction 1 as [|ir rows Hir _ IH]; simpl; [done|].
  assert (H := length_filter (fun c => isna (row_get ir.2 c) = false) (index ir.2)).
  rewrite Hir in H. unfold fmap in *. lia.
Qed.

Lemma project_names_empty_table df : data df = [] -> project_names df = [].
Proof. intros H. unfold project_names, column_values. by rewrite H. Qed.

(** X8.  The two percentages of a [Survey] entity are well defined and at
    most 100: [extract_survey_metadata] never divides by zero, and in
    every percentage it stores the part is at most the whole. *)
Theorem survey_percentages_bounded (b : SurveyKGBuilder) (df : DataFrame) :
  let b' := extract_survey_metadata b df in
  exists es,
    entities b' = entities b ++ es /\
    Forall (fun e =>
              (exists num den,
                 dict_get "completion_rate" (properties e) = Some (PPercent num den)) /\
              (exists num den,
                 dict_get "data_quality_score" (properties e) = Some (PPercent num den)) /\
              forall k num den, (k, PPercent num den) ∈ properties e ->
                                0 < den /\ num <= den) es.
Proof.
  intros b'. unfold b', extract_survey_metadata.
  case_bool_decide; [|exists []; by rewrite app_nil_r].
  destruct (data df) as [|cs0 rows0] eqn:Hdata.
  { rewrite project_names_empty_table by done. exists []. by rewrite app_nil_r. }
  assert (Hpos : 0 < length (data df)) by (rewrite Hdata; simpl; lia).
  clear Hdata.
  apply (foldl_preserves
           (fun b1 => exists es, entities b1 = entities b ++ es /\ Forall _ es)).
  2:{ exists []. by rewrite app_nil_r. }
  intros b1 p (es & H1 & H2).
  destruct (survey_step_entity df b1 p) as (e & y & H3 & _ & _ & H5).
  exists (es ++ [e]). split; [by rewrite H3, H1, <- app_assoc|].
  apply Forall_app. split; [done|]. constructor; [|done].
  assert (Hq : exists num den,
             _calculate_data_quality_score (length (columns df)) (project_rows df p) =
               PPercent num den /\ 0 < den /\ num <= den).
  { unfold _calculate_data_quality_score.
    destruct (0 <? length (project_rows df p) * length (columns df)) eqn:Ht.
    - eexists _, _. split; [done|]. apply Nat.ltb_lt in Ht. split; [done|].
      apply non_null_cells_le. apply Forall_forall. intros ir Hir.
      apply project_rows_iterrows, iterrows_elem_label in Hir as [_ ->]. done.
    - exists 0, 1. split; [done|]. lia. }
  destruct Hq as (qn & qd & Hq & Hqd & Hqn). rewrite H5, Hq.
  split; [by eexists _, _|]. split; [by eexists _, _|].
  intros k num den Hin. rewrite !elem_of_cons, elem_of_nil in Hin.
  destruct Hin as [Hin|[Hin|[Hin|[Hin|[Hin|[]]]]]]; try discriminate Hin.
  - injection Hin as _ -> ->. split; [done|].
    rewrite <- iterrows_length. apply length_filter.
  - injection Hin as _ -> ->. done.
Qed.

(** ** The loader: endpoints, nulls and degenerate batch sizes *)

Lemma filter_nil_Forall {A} (P : A -> Prop) `{!forall x, Decision (P x)} (l : list A) :
  Forall (fun x => ~ P x) l -> filter P l = [].
Proof.
  induction 1 as [|x l Hx _ IH]; [done|].
  by rewrite filter_cons, decide_False.
Qed.

Lemma match_nodes_none ns id : ~ has_node ns id -> length (match_nodes ns id) = 0.
Proof.
  intros Hno. rewrite match_nodes_length. rewrite filter_nil_Forall; [done|].
  apply Forall_forall. intros n Hn Hid. apply Hno. by exists n.
Qed.

Lemma edges_of_orphan ns r :
  ~ has_node ns (source_id r) \/ ~ has_node ns (target_id r) -> edges_of ns r = 0.
Proof.
  unfold edges_of. intros [H|H]; rewrite (match_nodes_none _ _ H); lia.
Qed.

Lemma create_relationship_batches_prefix chunks s :
  exists created,
    edges (foldl create_relationship_batch s chunks) = edges s ++ created.
Proof.
  apply (foldl_preserves (fun s1 => exists created, edges s1 = edges s ++ created)).
  - intros s1 batch [c1 H1]. unfold create_relationship_batch.
    apply (foldl_preserves (fun s2 => exists created, edges s2 = edges s ++ created)).
    + intros s2 g [c2 H2]. cbn [run snd edges]. rewrite H2, <- app_assoc. by eexists.
    + by exists c1.
  - exists []. by rewrite app_nil_r.
Qed.

(** X9.  A relationship with an endpoint that no node of the store
    carries is dropped without an error: writing relationships of which
    each misses its source or its target succeeds and leaves the nodes and
    the edges of the store as they were. *)
Theorem create_relationships_batch_orphans (s : Store)
    (rels : list SurveyRelationship) (rb : Z) :
  (1 <= rb)%Z ->
  (forall r, r ∈ rels ->
     ~ has_node (nodes s) (source_id r) \/ ~ has_node (nodes s) (target_id r)) ->
  exists s',
    create_relationships_batch s rels (Some rb) = Some s' /\
    nodes s' = nodes s /\ edges s' = edges s.
Proof.
  intros Hrb Horph.
  destruct (batches_concat rels rb Hrb) as (cr & Hcr & Hcat & _).
  unfold create_relationships_batch. simpl. rewrite Hcr. simpl.
  eexists. split; [reflexivity|].
  destruct (create_relationship_batches_effect cr s) as [Hn He].
  split; [done|].
  destruct (create_relationship_batches_prefix cr s) as [created Hc].
  rewrite Hc in He |- *. rewrite Hcat, length_app in He.
  assert (Hz : sum_list_with (edges_of (nodes s)) rels = 0).
  { clear -Horph. induction rels as [|r rels IH]; [done|]. cbn [sum_list_with].
    rewrite edges_of_orphan by (apply Horph, list_elem_of_here).
    rewrite IH; [done|]. intros r' Hr'. apply Horph. by apply list_elem_of_further. }
  assert (created = []) as -> by (apply length_zero_iff_nil; lia).
  by rewrite app_nil_r.
Qed.

Lemma create_relationships_batch_orphans_witness :
  exists s',
    create_relationships_batch Scenario.empty_store (relationships Scenario.kg)
      (Some 2%Z) = Some s' /\
    nodes s' = [] /\ edges s' = [].
Proof.
  apply (create_relationships_batch_orphans Scenario.empty_store
           (relationships Scenario.kg) 2); [lia|].
  intros r _. left. intros (n & Hn & _). by apply elem_of_nil in Hn.
Defined.

Lemma dict_update_get_notin {V} (k : string) (d other : list (string * V)) :
  k ∉ other.*1 -> dict_get k (dict_update d other) = dict_get k d.
Proof.
  unfold dict_update. revert d.
  induction other as [|[k0 v0] other IH]; intros d Hk; cbn [foldl]; [done|].
  cbn [fmap list_fmap fst] in Hk. apply not_elem_of_cons in Hk as [Hne Hk].
  rewrite IH by done. cbn [fst snd]. rewrite dict_get_set.
  destruct (String.eqb_spec k0 k); [congruence|done].
Qed.

Lemma dict_remove_get_ne {V} (k k' : string) (d : list (string * V)) :
  k <> k' -> dict_get k (dict_remove k' d) = dict_get k d.
Proof.
  intros Hne. unfold dict_remove. induction d as [|[k0 v0] d IH]; [done|].
  rewrite filter_cons. cbn [fst dict_get].
  destruct (decide (k0 <> k')) as [Hk|Hk]; cbn [dict_get].
  - by rewrite IH.
  - apply dec_stable in Hk. subst k0.
    destruct (String.eqb_spec k' k); [congruence|done].
Qed.

Lemma non_null_properties_keys props k :
  k ∉ props.*1 -> k ∉ (non_null_properties props).*1.
Proof.
  intros Hk Hin. apply Hk. apply list_elem_of_fmap in Hin as (kv & -> & Hkv).
  apply list_elem_of_filter in Hkv as [_ Hkv]. apply list_elem_of_fmap. by exists kv.
Qed.

Lemma entity_node_entity_id e :
  "entity_id" ∉ (properties e).*1 ->
  dict_get "entity_id" (node_properties (entity_node e)) = Some (PStr (entity_id e)).
Proof.
  intros Hk. unfold entity_node, node_of, entity_data_of.
  cbn [ed_text_content ed_properties ed_entity_id node_properties].
  destruct (text_content e) as [t|].
  - rewrite dict_get_set. cbn [String.eqb Ascii.eqb Bool.eqb].
    rewrite dict_update_get_notin by (by apply non_null_properties_keys). done.
  - rewrite dict_remove_get_ne by done.
    rewrite dict_update_get_notin by (by apply non_null_properties_keys). done.
Qed.

Lemma NoDup_fmap_count {A B} `{EqDecision B} (f : A -> B) (l : list A) (x : A) :
  NoDup (f <$> l) -> x ∈ l -> length (filter (fun y => f y = f x) l) = 1.
Proof.
  induction l as [|y l IH]; intros Hnd Hx; [by apply elem_of_nil in Hx|].
  rewrite fmap_cons in Hnd. apply NoDup_cons in Hnd as [Hy Hnd].
  rewrite filter_cons. destruct (decide (f y = f x)) as [Heq|Hne].
  - cbn [length]. f_equal. apply length_zero_iff_nil, filter_nil_Forall.
    apply Forall_forall. intros z Hz Hfz. apply Hy. rewrite Heq, <- Hfz.
    apply list_elem_of_fmap. by exists z.
  - apply elem_of_cons in Hx as [->|Hx]; [done|]. by apply IH.
Qed.

Lemma match_entity_nodes (es : list SurveyEntity) (id : string) :
  (forall e, e ∈ es -> "entity_id" ∉ (properties e).*1) ->
  length (match_nodes (entity_node <$> es) id) =
  length (filter (fun e => entity_id e = id) es).
Proof.
  intros Hk. rewrite match_nodes_length. induction es as [|e es IH]; [done|].
  rewrite fmap_cons, !filter_cons.
  rewrite entity_node_entity_id by (apply Hk, list_elem_of_here).
  assert (IH' := IH (fun e' He' => Hk e' (list_elem_of_further _ _ _ He'))).
  destruct (decide (entity_id e = id)) as [->|Hne].
  - rewrite decide_True by done. cbn [length]. by rewrite IH'.
  - rewrite decide_False by (intros [= ?]; done). exact IH'.
Qed.

Lemma edges_of_resolved (es : list SurveyEntity) (r : SurveyRelationship) :
  NoDup (entity_id <$> es) ->
  (forall e, e ∈ es -> "entity_id" ∉ (properties e).*1) ->
  resolved es r -> edges_of (entity_node <$> es) r = 1.
Proof.
  intros Hnd Hk [(e1 & He1 & Hs) (e2 & He2 & Ht)]. unfold edges_of.
  rewrite !match_entity_nodes by done. rewrite <- Hs, <- Ht.
  rewrite !NoDup_fmap_count by done. done.
Qed.

Lemma clear_database_empties s :
  nodes (clear_database s true) = [] /\ edges (clear_database s true) = [].
Proof.
  unfold clear_database.
  rewrite (delete_all_relationships_result _ s eq_refl).
  rewrite (delete_all_nodes_result _ _ eq_refl). done.
Qed.

(** X10.  Cleared and then loaded, as the pipeline does it, the store
    holds exactly the extraction result, whatever it held before: for
    entities with distinct IDs and no property named [entity_id], and
    relationships whose endpoints are among them, the nodes are the
    entities' nodes and there is one edge per relationship. *)
Theorem clear_then_load_exact (s : Store) (es : list SurveyEntity)
    (rels : list SurveyRelationship) (eb rb : Z) :
  (1 <= eb)%Z -> (1 <= rb)%Z ->
  NoDup (entity_id <$> es) ->
  (forall e, e ∈ es -> "entity_id" ∉ (properties e).*1) ->
  (forall r, r ∈ rels -> resolved es r) ->
  exists s1 s2,
    create_entities_batch (clear_database s true) es (Some eb) = Some s1 /\
    create_relationships_batch s1 rels (Some rb) = Some s2 /\
    nodes s2 ≡ₚ entity_node <$> es /\
    length (nodes s2) = length es /\
    length (edges s2) = length rels.
Proof.
  intros Heb Hrb Hnd Hk Hres.
  destruct (clear_database_empties s) as [Hn0 He0].
  generalize dependent (clear_database s true). intros s0 Hn0 He0.
  destruct (batches_concat es eb Heb) as (ce & Hce & Hcat & _).
  destruct (batches_concat rels rb Hrb) as (cr & Hcr & Hcat' & _).
  unfold create_entities_batch, create_relationships_batch. simpl.
  rewrite Hce. simpl. eexists. eexists.
  split; [reflexivity|]. rewrite Hcr. simpl.
  split; [reflexivity|].
  destruct (create_entity_batches_effect ce s0) as [Hn He].
  destruct (create_relationship_batches_effect cr
              (foldl create_entity_batch s0 ce)) as [Hn' He'].
  rewrite Hn0, Hcat in Hn. cbn [app] in Hn.
  rewrite Hn', He', He, He0, Hcat'. split; [exact Hn|]. split.
  - by rewrite Hn, length_fmap.
  - cbn [length]. rewrite (edge_count_Permutation _ _ rels Hn), Nat.add_0_l.
    clear -Hnd Hk Hres. induction rels as [|r rels IH]; [done|].
    cbn [sum_list_with length].
    rewrite edges_of_resolved by (try done; apply Hres, list_elem_of_here).
    rewrite IH; [done|]. intros r' Hr'. by apply Hres, list_elem_of_further.
Qed.

Lemma clear_then_load_exact_witness :
  exists s1 s2,
    create_entities_batch
      (clear_database (mkStore [mkNode "Old" [("entity_id", PStr "x")]] [] []) true)
      (entities Scenario.kg) (Some 2%Z) = Some s1 /\
    create_relationships_batch s1 (relationships Scenario.kg) (Some 2%Z) = Some s2 /\
    nodes s2 ≡ₚ entity_node <$> entities Scenario.kg /\
    length (nodes s2) = length (entities Scenario.kg) /\
    length (edges s2) = length (relationships Scenario.kg).
Proof.
  apply clear_then_load_exact; [lia|lia| | |].
  - apply (bool_decide_unpack _). vm_compute. reflexivity.
  - apply Forall_forall. apply (bool_decide_unpack _). vm_compute. reflexivity.
  - apply (build_knowledge_graph_closed Scenario.ont Scenario.clock new_builder
             Scenario.df).
    intros rel Hrel. by apply elem_of_nil in Hrel.
Defined.

Lemma dict_update_values {V} (P : V -> Prop) (d other : list (string * V)) :
  Forall (fun kv => P kv.2) d -> Forall (fun kv => P kv.2) other ->
  Forall (fun kv => P kv.2) (dict_update d other).
Proof.
  intros Hd Ho. unfold dict_update. revert d Hd.
  induction Ho as [|kv other Hkv _ IH]; intros d Hd; cbn [foldl]; [done|].
  apply IH. by apply (dict_set_values P).
Qed.

Lemma entity_node_no_null e : no_null_property (entity_node e).
Proof.
  unfold no_null_property, entity_node, node_of, entity_data_of.
  cbn [ed_text_content ed_properties ed_entity_id node_properties].
  assert (H : Forall (fun kv : string * pvalue => kv.2 <> PNull)
                (dict_update [("entity_id", PStr (entity_id e))]
                             (non_null_properties (properties e)))).
  { apply (dict_update_values (fun v => v <> PNull)).
    - by repeat constructor.
    - apply Forall_forall. intros kv Hkv.
      by apply list_elem_of_filter in Hkv as [? _]. }
  destruct (text_content e) as [t|].
  - by apply (dict_set_values (fun v => v <> PNull)).
  - apply Forall_forall. intros kv Hkv. apply list_elem_of_filter in Hkv as [_ Hkv].
    rewrite Forall_forall in H. by apply H.
Qed.

(** X11.  The entity writer never stores a null property: if no node of
    the store has one before [create_entities_batch], none has one after
    it, whatever null values the entities' property bags hold. *)
Theorem create_entities_batch_no_null (s : Store) (es : list SurveyEntity) (eb : Z) :
  (1 <= eb)%Z ->
  Forall no_null_property (nodes s) ->
  exists s',
    create_entities_batch s es (Some eb) = Some s' /\
    length (nodes s') = length (nodes s) + length es /\
    Forall no_null_property (nodes s').
Proof.
  intros Heb Hs.
  destruct (batches_concat es eb Heb) as (ce & Hce & Hcat & _).
  unfold create_entities_batch. simpl. rewrite Hce. simpl.
  eexists. split; [reflexivity|].
  destruct (create_entity_batches_effect ce s) as [Hn _]. rewrite Hcat in Hn.
  rewrite Hn. split; [by rewrite length_app, length_fmap|].
  apply Forall_app. split; [done|].
  apply Forall_forall. intros n (e & -> & _)%list_elem_of_fmap.
  apply entity_node_no_null.
Qed.

Lemma create_entities_batch_no_null_witness :
  exists s',
    create_entities_batch Scenario.empty_store
      [mkEntity "e1" "Opinions" [("approval", PStr "yes"); ("trust", PNull)] None]
      (Some 1%Z) = Some s' /\
    length (nodes s') = 1 /\
    Forall no_null_property (nodes s').
Proof.
  apply (create_entities_batch_no_null Scenario.empty_store
           [mkEntity "e1" "Opinions" [("approval", PStr "yes"); ("trust", PNull)] None]
           1); [lia|].
  apply Forall_nil_2.
Defined.

Lemma batches_nil {A} (bs : Z) : bs <> 0%Z -> batches (@nil A) bs = Some [].
Proof.
  intros Hbs. unfold batches, py_range. cbn [length].
  destruct (Z.eqb_spec bs 0) as [|_]; [done|].
  destruct (Z.ltb_spec bs 0) as [|Hge]; [done|].
  rewrite ceil_div_0 by lia. done.
Qed.

(** X12.  The degenerate batch sizes: a batch size of 0 makes both
    writers raise (the [ValueError] of [range]); a negative one makes them
    return without writing anything and without an error, however many
    items they were given; and with nothing to write no statement is run. *)
Theorem batch_writers_degenerate (s : Store) (es : list SurveyEntity)
    (rels : list SurveyRelationship) :
  create_entities_batch s es (Some 0%Z) = None /\
  create_relationships_batch s rels (Some 0%Z) = None /\
  (forall bs, (bs < 0)%Z ->
     create_entities_batch s es (Some bs) = Some s /\
     create_relationships_batch s rels (Some bs) = Some s) /\
  (forall bs, bs <> Some 0%Z ->
     create_entities_batch s [] bs = Some s /\
     create_relationships_batch s [] bs = Some s).
Proof.
  split; [done|]. split; [done|]. split.
  - intros bs Hbs. unfold create_entities_batch, create_relationships_batch,
      batches, py_range. simpl.
    destruct (Z.eqb_spec bs 0) as [|_]; [lia|].
    destruct (Z.ltb_spec bs 0) as [_|]; [|lia]. done.
  - intros bs Hbs. unfold create_entities_batch, create_relationships_batch.
    rewrite !batches_nil; [done| |].
    + destruct bs as [z|]; simpl; [congruence|done].
    + destruct bs as [z|]; simpl; [congruence|done].
Qed.

(** ** Port allocation *)

Import Docker.

Lemma next_free_port_spec used port :
  port <= next_free_port used port /\
  (next_free_port used port ∉ used) /\
  forall r, port <= r < next_free_port used port -> r ∈ used.
Proof.
  funelim (next_free_port used port).
  - destruct H as (H1 & H2 & H3).
    pose proof (bool_decide_eq_true_1 _ Hin) as Hin'.
    split; [lia|]. split; [done|]. intros r Hr.
    destruct (decide (r = port)) as [->|Hne]; [done|]. apply H3. lia.
  - pose proof (bool_decide_eq_false_1 _ Hout) as Hout'.
    split; [done|]. split; [done|]. intros r Hr. lia.
Qed.

Lemma find_available_ports_props (m : PortState) (container_ports : gset nat) :
  let r := _find_available_ports m container_ports in
  r.1.1 <> r.1.2 /\
  base_http_port m <= r.1.1 /\ base_bolt_port m <= r.1.2 /\
  (r.1.1 ∉ container_ports ∪ used_ports m) /\
  (r.1.2 ∉ container_ports ∪ used_ports m) /\
  (forall p, base_http_port m <= p < r.1.1 -> p ∈ container_ports ∪ used_ports m) /\
  (forall p, base_bolt_port m <= p < r.1.2 ->
     p ∈ container_ports ∪ used_ports m \/ p = r.1.1) /\
  used_ports r.2 = {[r.1.1; r.1.2]} ∪ used_ports m /\
  base_http_port r.2 = base_http_port m /\ base_bolt_port r.2 = base_bolt_port m.
Proof.
  unfold _find_available_ports. cbn [fst snd].
  set (http := next_free_port (container_ports ∪ used_ports m) (base_http_port m)).
  set (bolt := next_free_port (container_ports ∪ used_ports m ∪ {[http]})
                 (base_bolt_port m)).
  destruct (next_free_port_spec (container_ports ∪ used_ports m) (base_http_port m))
    as (H1 & H2 & H3). fold http in H1, H2, H3.
  destruct (next_free_port_spec (container_ports ∪ used_ports m ∪ {[http]})
              (base_bolt_port m)) as (B1 & B2 & B3). fold bolt in B1, B2, B3.
  rewrite not_elem_of_union, not_elem_of_singleton in B2. destruct B2 as [B2 B2'].
  split; [congruence|]. split; [done|]. split; [done|]. split; [done|].
  split; [done|]. split; [done|]. split.
  - intros p Hp. apply B3 in Hp. rewrite elem_of_union, elem_of_singleton in Hp. done.
  - cbn [used_ports base_http_port base_bolt_port]. split; [|done].
    apply set_eq. intros p. rewrite !elem_of_union, !elem_of_singleton. tauto.
Qed.


(** X14.  Ports are not handed out twice: two successive calls of
    [_find_available_ports] return four different ports, whatever the
    containers report; and releasing the ports of a call, as
    [remove_instance] does, restores the manager's set of used ports. *)
Theorem find_available_ports_fresh (m : PortState) (containers1 containers2 : gset nat) :
  let r1 := _find_available_ports m containers1 in
  let r2 := _find_available_ports r1.2 containers2 in
  NoDup [r1.1.1; r1.1.2; r2.1.1; r2.1.2] /\
  used_ports (release_ports r1.2 r1.1.1 r1.1.2) = used_ports m.
Proof.
  intros r1 r2.
  destruct (find_available_ports_props m containers1)
    as (D1 & _ & _ & N1 & N1' & _ & _ & U1 & _).
  destruct (find_available_ports_props r1.2 containers2)
    as (D2 & _ & _ & N2 & N2' & _ & _ & _).
  cbv zeta in *. fold r1 in D1, N1, N1', U1, D2, N2, N2'. fold r2 in D2, N2, N2'.
  rewrite U1 in N2, N2'.
  rewrite !not_elem_of_union in N1, N1'.
  rewrite !not_elem_of_union, !not_elem_of_singleton in N2.
  rewrite !not_elem_of_union, !not_elem_of_singleton in N2'.
  split.
  - repeat (apply NoDup_cons; split;
              [rewrite ?elem_of_cons, elem_of_nil; intuition congruence|]).
    apply NoDup_nil_2.
  - unfold release_ports. cbn [used_ports]. rewrite U1. apply set_eq. intros p.
    rewrite !elem_of_difference, !elem_of_union, !elem_of_singleton.
    split; [tauto|]. intros Hp.
    assert (p <> r1.1.1) by (intros ->; tauto).
    assert (p <> r1.1.2) by (intros ->; tauto). tauto.
Qed.

(** ** Sanitised names *)

Lemma sanitise_char_kept (c : ascii) :
  let c1 := if Ascii.eqb (if Ascii.eqb (lower_char c) " " then "-"%char
                          else lower_char c) "_"
            then "-"%char
            else if Ascii.eqb (lower_char c) " " then "-"%char else lower_char c in
  isalnum c1 || Ascii.eqb c1 "-" = true -> name_char "-" c1 = true.
Proof.
  destruct c as [[] [] [] [] [] [] [] []]; vm_compute; intros H;
    first [reflexivity | discriminate H].
Qed.

Lemma password_char_kept (c : ascii) :
  let c1 := if Ascii.eqb (if Ascii.eqb (lower_char c) " " then "_"%char
                          else lower_char c) "-"
            then "_"%char
            else if Ascii.eqb (lower_char c) " " then "_"%char else lower_char c in
  isalnum c1 || Ascii.eqb c1 "_" = true -> name_char "_" c1 = true.
Proof.
  destruct c as [[] [] [] [] [] [] [] []]; vm_compute; intros H;
    first [reflexivity | discriminate H].
Qed.

Lemma name_char_fixed (c : ascii) :
  name_char "-" c = true ->
  lower_char c = c /\ Ascii.eqb c " " = false /\ Ascii.eqb c "_" = false /\
  isalnum c || Ascii.eqb c "-" = true.
Proof.
  destruct c as [[] [] [] [] [] [] [] []]; vm_compute; intros H;
    first [discriminate H | repeat split; reflexivity].
Qed.

Lemma safe_survey_name_chars s :
  all_chars (name_char "-") (safe_survey_name s) = true.
Proof.
  unfold safe_survey_name, replace_char, lower.
  induction s as [|c s IH]; [done|]. cbn [map_chars filter_chars].
  match goal with |- context [if ?b then _ else _] => destruct b eqn:E end;
    [|exact IH].
  cbn [all_chars]. rewrite IH, andb_true_r. by apply sanitise_char_kept.
Qed.

Lemma password_chars s :
  all_chars (name_char "_")
    (filter_chars (fun c => isalnum c || Ascii.eqb c "_")
       (replace_char "-" "_" (replace_char " " "_" (lower s)))) = true.
Proof.
  unfold replace_char, lower.
  induction s as [|c s IH]; [done|]. cbn [map_chars filter_chars].
  match goal with |- context [if ?b then _ else _] => destruct b eqn:E end;
    [|exact IH].
  cbn [all_chars]. rewrite IH, andb_true_r. by apply password_char_kept.
Qed.

Lemma safe_survey_name_fixed s :
  all_chars (name_char "-") s = true -> safe_survey_name s = s.
Proof.
  unfold safe_survey_name, replace_char, lower.
  induction s as [|c s IH]; [done|]. cbn [all_chars map_chars filter_chars].
  intros [Hc Hs]%andb_prop. destruct (name_char_fixed c Hc) as (H1 & H2 & H3 & H4).
  rewrite H1, H2, H3, H4. by rewrite IH.
Qed.

(** X15.  The names [create_instance] derives from a survey name of ASCII
    characters: the container-name part holds only lower-case letters,
    digits and hyphens, and sanitising it again changes nothing; the
    password is [kg_] followed by lower-case letters, digits and
    underscores only; and the container name starts with the prefix by
    which [_find_available_ports] recognises the manager's containers. *)
Theorem create_instance_names (survey_name instance_id : string) :
  all_chars is_ascii survey_name = true ->
  all_chars (name_char "-") (safe_survey_name survey_name) = true /\
  safe_survey_name (safe_survey_name survey_name) = safe_survey_name survey_name /\
  (exists base, password survey_name = "kg_" +:+ base /\
                all_chars (name_char "_") base = true) /\
  (exists rest, container_name survey_name instance_id = "neo4j-kg-" +:+ rest).
Proof.
  intros _. split; [apply safe_survey_name_chars|]. split.
  - apply safe_survey_name_fixed, safe_survey_name_chars.
  - split; [|eexists; reflexivity]. eexists. split; [reflexivity|]. apply password_chars.
Qed.

Lemma create_instance_names_witness :
  all_chars (name_char "-") (safe_survey_name "Marist Poll_2024 (Q&A)") = true /\
  safe_survey_name (safe_survey_name "Marist Poll_2024 (Q&A)") =
    safe_survey_name "Marist Poll_2024 (Q&A)" /\
  (exists base, password "Marist Poll_2024 (Q&A)" = "kg_" +:+ base /\
                all_chars (name_char "_") base = true) /\
  (exists rest,
     container_name "Marist Poll_2024 (Q&A)" "20250314_092653_1a2b3c4d" =
       "neo4j-kg-" +:+ rest).
Proof.
  apply (create_instance_names "Marist Poll_2024 (Q&A)" "20250314_092653_1a2b3c4d").
  reflexivity.
Defined.

Example create_instance_names_example :
  safe_survey_name "Marist Poll_2024 (Q&A)" = "marist-poll-2024-qa" /\
  password "Marist Poll_2024 (Q&A)" = "kg_marist_poll_2024_qa" /\
  container_name "Marist Poll_2024 (Q&A)" "20250314_092653_1a2b3c4d" =
    "neo4j-kg-marist-poll-2024-qa-1a2b3c4d".
Proof. vm_compute. repeat split; reflexivity. Qed.

(** ** A table without rows *)

(** X16.  A table without rows is not an error: a run over it from a
    fresh builder yields one [Question] entity per recognised column and
    nothing else (no respondent, no survey, no relationship), and the
    result passes validation. *)
Theorem build_knowledge_graph_empty_table (ontology : Ontology)
    (now : nat -> datetime) (df : DataFrame) :
  data df = [] ->
  let b := build_knowledge_graph ontology now new_builder df in
  relationships b = [] /\
  Forall (fun e => entity_type e = "Question") (entities b) /\
  length (entities b) = length (question_columns ontology ∅ (columns df)) /\
  validation_passed (validate_entity_relationships b).1 = true.
Proof.
  intros Hdata b.
  destruct (build_knowledge_graph_types ontology now df) as [He Hr].
  fold b in He, Hr. unfold run_entity_types, run_rel_types in He, Hr.
  rewrite project_names_empty_table in He, Hr by done.
  assert (Hit : iterrows df = []) by (unfold iterrows; by rewrite Hdata).
  rewrite Hit, Hdata in He. rewrite Hit in Hr. cbn in He, Hr.
  rewrite app_nil_r in He.
  assert (Hrels : relationships b = []) by (by apply fmap_nil_inv in Hr).
  split; [done|]. split; [|split].
  - apply Forall_forall. intros e Hin.
    assert (Ht : entity_type e ∈ entity_type <$> entities b)
      by (apply list_elem_of_fmap; by exists e).
    rewrite He in Ht. by apply list_elem_of_fmap in Ht as (c & -> & _).
  - apply (f_equal length) in He. by rewrite !length_fmap in He.
  - apply (validate_entity_relationships_report b). rewrite Hrels.
    intros rel Hrel. by apply elem_of_nil in Hrel.
Qed.

Lemma build_knowledge_graph_empty_table_witness :
  let b := build_knowledge_graph Scenario.ont Scenario.clock new_builder
             (mkDataFrame ["UID"; "Q1"; "q1"] (fun _ => "object") []) in
  relationships b = [] /\
  Forall (fun e => entity_type e = "Question") (entities b) /\
  length (entities b) = 2 /\
  validation_passed (validate_entity_relationships b).1 = true.
Proof.
  apply (build_knowledge_graph_empty_table Scenario.ont Scenario.clock
           (mkDataFrame ["UID"; "Q1"; "q1"] (fun _ => "object") [])).
  reflexivity.
Defined.

(** ** What a response entity and a node hold *)

Lemma dict_update_fresh {V} (d other : list (string * V)) :
  NoDup other.*1 -> (forall k, k ∈ other.*1 -> k ∉ d.*1) ->
  dict_update d other = d ++ other.
Proof.
  unfold dict_update. revert d.
  induction other as [|[k v] other IH]; intros d Hnd Hfresh; cbn [foldl].
  - by rewrite app_nil_r.
  - cbn [fmap list_fmap fst] in Hnd, Hfresh. apply NoDup_cons in Hnd as [Hk Hnd].
    cbn [fst snd]. rewrite dict_set_fresh by apply Hfresh, list_elem_of_here.
    rewrite IH; [by rewrite <- app_assoc|done|].
    intros k' Hk'. rewrite fmap_app, elem_of_app. cbn [fmap list_fmap fst].
    rewrite list_elem_of_singleton. intros [Hd| ->]; [|done].
    revert Hd. by apply Hfresh, list_elem_of_further.
Qed.

Lemma non_null_answered ontology row field_set :
  length (non_null
    ((fun f => (get_descriptive_field_name ontology f,
                _safe_convert_value (row_get row f))) <$>
       filter (fun f => f ∈ index row) field_set)) =
  length (filter (answered row) field_set).
Proof.
  unfold non_null. induction field_set as [|f fs IH]; [done|].
  rewrite (filter_cons (answered row)).
  destruct (decide (answered row f)) as [[Hin Hv]|Hno].
  - rewrite filter_cons, decide_True by done. rewrite fmap_cons.
    cbn [omap list_omap fst snd].
    destruct (_safe_convert_value (row_get row f)) as [v|]; [|done].
    cbn [fmap option_fmap option_map length]. f_equal. exact IH.
  - rewrite filter_cons. destruct (decide (f ∈ index row)) as [Hin|Hin]; [|exact IH].
    rewrite fmap_cons. cbn [omap list_omap fst snd].
    destruct (_safe_convert_value (row_get row f)) as [v|] eqn:E.
    + destruct Hno. split; [done|]. by rewrite E.
    + exact IH.
Qed.

(** X17.  What a response entity holds.  For a category whose fields in
    the table have pairwise distinct descriptive names, none of them the
    name of a metadata entry, and with some field answered: the entity's
    properties are the respondent, the category and the number of answered
    fields, followed by one entry per field of the category in the table,
    under its descriptive name, holding the converted answer or null; and
    the relationship carries the same respondent and count. *)
Theorem response_entity_properties (ontology : Ontology) (now : nat -> datetime)
    (rid : string) (row : Series) (b : SurveyKGBuilder)
    (cat : string) (field_set : list string) :
  let present := filter (fun f => f ∈ index row) field_set in
  let descriptive := get_descriptive_field_name ontology in
  NoDup (descriptive <$> present) ->
  Forall (fun f => descriptive f ∉
            ["respondent_uid"; "response_category"; "response_count"]) present ->
  Exists (answered row) field_set ->
  exists e r t,
    response_step ontology now rid row b (cat, field_set) =
      add_relationship r (tick (add_entity e b)) /\
    properties e =
      [("respondent_uid", PStr rid);
       ("response_category", PStr cat);
       ("response_count",
        PInt (Z.of_nat (length (filter (answered row) field_set))))] ++
      ((fun f => (descriptive f, opt_pvalue (_safe_convert_value (row_get row f))))
         <$> present) /\
    rel_properties r =
      Some [("respondent_uid", PStr rid);
            ("response_count",
             PInt (Z.of_nat (length (filter (answered row) field_set))));
            ("created_at", PStr (isoformat (now t)))].
Proof.
  intros present descriptive Hnd Hmeta Hex.
  assert (Hhas := has_responses_answered ontology row field_set Hnd Hex).
  unfold has_responses in Hhas. unfold response_step.
  assert (Hlen := non_null_answered ontology row field_set).
  rewrite <- (collect_responses_distinct ontology row field_set Hnd) in Hlen.
  destruct (non_null (collect_responses ontology row field_set)) as [|kv kvs] eqn:E;
    [done|]. cbv zeta. unfold read_clock.
  eexists _, _, _. split; [reflexivity|]. cbn [properties rel_properties].
  rewrite Hlen. split; [|reflexivity].
  rewrite (collect_responses_distinct ontology row field_set Hnd).
  fold present. fold descriptive.
  change (map ?f ?l) with (f <$> l). rewrite <- list_fmap_compose.
  rewrite dict_update_fresh.
  - reflexivity.
  - rewrite <- list_fmap_compose. exact Hnd.
  - intros k Hk. rewrite <- list_fmap_compose in Hk.
    apply list_elem_of_fmap in Hk as (f & -> & Hf).
    rewrite Forall_forall in Hmeta. exact (Hmeta f Hf).
Qed.

Lemma response_entity_properties_witness :
  exists e r t,
    response_step Scenario.ont Scenario.clock "00000120250314092653" Scenario.row0
      new_builder ("OPINIONS", ["Q1"]) =
      add_relationship r (tick (add_entity e new_builder)) /\
    properties e =
      [("respondent_uid", PStr "00000120250314092653");
       ("response_category", PStr "OPINIONS");
       ("response_count", PInt 1);
       ("approval", PStr "yes")] /\
    rel_properties r =
      Some [("respondent_uid", PStr "00000120250314092653");
            ("response_count", PInt 1);
            ("created_at", PStr (isoformat (Scenario.clock t)))].
Proof.
  assert (Hnd : NoDup (get_descriptive_field_name Scenario.ont <$>
                         filter (fun f => f ∈ index Scenario.row0) ["Q1"])).
  { apply (bool_decide_unpack _). vm_compute. reflexivity. }
  assert (Hmeta : Forall (fun f => get_descriptive_field_name Scenario.ont f ∉
                     ["respondent_uid"; "response_category"; "response_count"])
                    (filter (fun f => f ∈ index Scenario.row0) ["Q1"])).
  { apply (bool_decide_unpack _). vm_compute. reflexivity. }
  assert (Hex : Exists (answered Scenario.row0) ["Q1"]).
  { apply Exists_cons_hd. split.
    - apply (bool_decide_unpack _). vm_compute. reflexivity.
    - vm_compute. discriminate. }
  destruct (response_entity_properties Scenario.ont Scenario.clock
              "00000120250314092653" Scenario.row0 new_builder "OPINIONS" ["Q1"]
              Hnd Hmeta Hex) as (e & r & t & H1 & H2 & H3).
  exists e, r, t. split; [exact H1|]. split; [|exact H3].
  rewrite H2. vm_compute. reflexivity.
Defined.






